(** * Prompt Repository Editor: snapshot persistence and edit reconciliation

    A shallow embedding of [streamlit_app.py]: the blob-storage functions
    ([download_latest_prompt_repo_from_blob], [upload_prompt_repo_to_blob]),
    the prompt selection of the edit page and the two upload button
    handlers, followed by the properties the specification states about
    them.

    Python values are embedded as follows.
    - [str] is a sequence of Unicode code points ([list N]); comparison
      is Python's code-point-wise lexicographic order.
    - A document is a record with optional fields, one per key the script
      reads with [.get(key, default)] or a subscript.  JSON values of
      another shape are outside the model.
    - The script's effects (blob service calls, Streamlit messages, the
      cache and the session state) are threaded through a state and
      exception monad [M]; [try]/[except] is [try_except].
    - What the script takes from libraries is either a parameter
      ([json.loads], [json.dumps]) or a model of the documented behaviour
      (the blob container, the cache decorator, the select box).  The
      blob service may fail at any request: the state carries the
      outcomes of the coming requests, and the theorems range over all of
      them. *)

From Stdlib Require Import List NArith ZArith Bool Lia Permutation.
From Stdlib Require Import Ascii.
From Stdlib Require String DecimalN.
Import ListNotations.
Import String.StringSyntax.
Delimit Scope string_scope with pystr.

Set Implicit Arguments.

(** ** Python strings *)

Definition char := N.
Definition str := list char.

(** A literal of the source, as code points. *)
Definition lit (x : String.string) : str :=
  List.map N_of_ascii (String.list_ascii_of_string x).
Arguments lit x%_pystr : simpl never.

Definition NL : char := 10%N.

Definition char_eqb : char -> char -> bool := N.eqb.

Fixpoint str_eqb (a b : str) : bool :=
  match a, b with
  | [], [] => true
  | x :: a', y :: b' => char_eqb x y && str_eqb a' b'
  | _, _ => false
  end.

(** [a < b] on [str]: the first differing code point decides, a proper
    prefix is smaller. *)
Fixpoint str_ltb (a b : str) : bool :=
  match a, b with
  | _, [] => false
  | [], _ :: _ => true
  | x :: a', y :: b' =>
      if N.ltb x y then true
      else if N.ltb y x then false
      else str_ltb a' b'
  end.

Definition str_leb (a b : str) : bool := negb (str_ltb b a).

(** [s.startswith(p)], which is what the service's [name_starts_with]
    filter tests. *)
Fixpoint startswith (p s : str) : bool :=
  match p, s with
  | [], _ => true
  | _ :: _, [] => false
  | x :: p', y :: s' => char_eqb x y && startswith p' s'
  end.

(** [sep.join(parts)] for the separator ["\n"]. *)
Fixpoint join_nl (parts : list str) : str :=
  match parts with
  | [] => []
  | [x] => x
  | x :: rest => x ++ NL :: join_nl rest
  end.

(** [s.split('\n')]: the text is cut at every line break; [n] breaks
    give [n + 1] pieces, so the empty text gives one empty piece. *)
Fixpoint split_nl (s : str) : list str :=
  match s with
  | [] => [[]]
  | c :: s' =>
      if char_eqb c NL then [] :: split_nl s'
      else match split_nl s' with
           | [] => [[c]]
           | l :: ls => (c :: l) :: ls
           end
  end.

(** [str.isspace] for one code point (CPython's whitespace table). *)
Definition is_space (c : char) : bool :=
  ((9 <=? c) && (c <=? 13) || (28 <=? c) && (c <=? 32)
   || (c =? 133) || (c =? 160) || (c =? 5760)
   || (8192 <=? c) && (c <=? 8202)
   || (c =? 8232) || (c =? 8233) || (c =? 8239) || (c =? 8287)
   || (c =? 12288))%N.

Fixpoint lstrip (s : str) : str :=
  match s with
  | [] => []
  | c :: s' => if is_space c then lstrip s' else s
  end.

Definition rstrip (s : str) : str := rev (lstrip (rev s)).

(** [s.strip()] *)
Definition strip (s : str) : str := rstrip (lstrip s).

(** Decimal digits of a number, as [str(i)] and the [%d]-like fields of
    [strftime] print them. *)
Fixpoint uint_str (u : Decimal.uint) : str :=
  match u with
  | Decimal.Nil => []
  | Decimal.D0 u' => 48%N :: uint_str u'
  | Decimal.D1 u' => 49%N :: uint_str u'
  | Decimal.D2 u' => 50%N :: uint_str u'
  | Decimal.D3 u' => 51%N :: uint_str u'
  | Decimal.D4 u' => 52%N :: uint_str u'
  | Decimal.D5 u' => 53%N :: uint_str u'
  | Decimal.D6 u' => 54%N :: uint_str u'
  | Decimal.D7 u' => 55%N :: uint_str u'
  | Decimal.D8 u' => 56%N :: uint_str u'
  | Decimal.D9 u' => 57%N :: uint_str u'
  end.

Definition dec (n : N) : str := uint_str (N.to_uint n).

(** Zero padding on the left up to [width] digits. *)
Definition zpad (width : nat) (d : str) : str :=
  repeat 48%N (width - length d) ++ d.

(** ** Python list operations used by the script *)

(** [max(l, key=lambda b: b.name)]: the first greatest element; an
    empty argument raises [ValueError] ([None]).  A listed blob is
    represented by its name, the only attribute the script reads. *)
Fixpoint max_from (best : str) (l : list str) : str :=
  match l with
  | [] => best
  | x :: rest => if str_ltb best x then max_from x rest else max_from best rest
  end.

Definition py_max (l : list str) : option str :=
  match l with
  | [] => None
  | x :: rest => Some (max_from x rest)
  end.

(** [l.index(x)]: position of the first element equal to [x];
    [ValueError] ([None]) when there is none. *)
Fixpoint py_index (l : list str) (x : str) : option nat :=
  match l with
  | [] => None
  | y :: rest =>
      if str_eqb y x then Some 0
      else match py_index rest x with
           | Some i => Some (S i)
           | None => None
           end
  end.

(** [l[i]] for a Python integer [i]: negative positions count from the
    end, anything outside raises [IndexError] ([None]). *)
Definition py_getitem {A : Type} (l : list A) (i : Z) : option A :=
  let n := Z.of_nat (length l) in
  let j := if (i <? 0)%Z then (i + n)%Z else i in
  if ((0 <=? j) && (j <? n))%Z then nth_error l (Z.to_nat j) else None.

Fixpoint set_nth {A : Type} (l : list A) (i : nat) (v : A) : list A :=
  match l, i with
  | [], _ => []
  | _ :: rest, O => v :: rest
  | x :: rest, S i' => x :: set_nth rest i' v
  end.

(** [l[i] = v] for a Python integer [i]; [None] is [IndexError]. *)
Definition py_setitem {A : Type} (l : list A) (i : Z) (v : A) : option (list A) :=
  let n := Z.of_nat (length l) in
  let j := if (i <? 0)%Z then (i + n)%Z else i in
  if ((0 <=? j) && (j <? n))%Z then Some (set_nth l (Z.to_nat j) v) else None.


(** ** Documents

    The JSON shape the script works on:
    [{"APPS": [{"name": .., "prompts": [{"name": .., "content": [..]}]}]}].
    A field is [None] when the key is absent from the object, which is
    the case [.get(key, default)] provides for. *)

Record Prompt := mkPrompt {
  p_name : option str;
  p_content : option (list str) }.

Record App := mkApp {
  a_name : option str;
  a_prompts : option (list Prompt) }.

Record Document := mkDocument {
  APPS : option (list App) }.

(** [{"APPS": [{"name": "mmx", "prompts": []}]}] *)
Definition default_document : Document :=
  mkDocument (Some [mkApp (Some (lit "mmx")) (Some [])]).

(** [{"APPS": []}] *)
Definition empty_apps_document : Document := mkDocument (Some []).

(** ** State, exceptions and the monad of the script *)

Record datetime := mkDatetime {
  year : N; month : N; day : N; hour : N; minute : N; second : N }.

(** [t.strftime("%Y%m%d_%H%M%S")] *)
Definition strftime (t : datetime) : str :=
  zpad 4 (dec (year t)) ++ zpad 2 (dec (month t)) ++ zpad 2 (dec (day t))
  ++ lit "_"
  ++ zpad 2 (dec (hour t)) ++ zpad 2 (dec (minute t)) ++ zpad 2 (dec (second t)).

Inductive exn :=
| ServiceError (msg : str)      (* any exception of the Azure SDK *)
| JSONDecodeError (msg : str)
| RecursionError (msg : str)    (* raised by [json.loads] on text nested too deep *)
| ValueError
| IndexError
| KeyError
| RerunException.               (* raised by [st.rerun()] *)

(** [str(e)] *)
Definition exn_str (e : exn) : str :=
  match e with
  | ServiceError msg | JSONDecodeError msg | RecursionError msg => msg
  | _ => []
  end.

(** [except Exception]: everything but Streamlit's script-control
    exception, which derives from [BaseException]. *)
Definition is_Exception (e : exn) : bool :=
  match e with RerunException => false | _ => true end.

(** [except json.JSONDecodeError] *)
Definition is_JSONDecodeError (e : exn) : bool :=
  match e with JSONDecodeError _ => true | _ => false end.

(** Requests sent to the blob service, in the order they were made. *)
Inductive Call :=
| CallConnect
| CallList (prefix : str)
| CallDownload (name : str)
| CallUpload (name data : str).

(** Elements the script shows on the page. *)
Inductive Msg :=
| Warning (text : str)
| Info (text : str)
| Error (text : str)
| Success (text : str).

Record State := mkState {
  blobs : list (str * str);          (* the container: name and data, in listing order *)
  faults : list (option str);        (* outcome of the coming service calls *)
  calls : list Call;                 (* service calls made, oldest first *)
  utcnow : datetime;                 (* wall clock *)
  timer : N;                         (* clock of the cache *)
  cache : option (Document * N);     (* entry of [st.cache_data] and its fetch time *)
  prompt_data : option Document;     (* [st.session_state.prompt_data] *)
  ui : list Msg }.                   (* messages shown, oldest first *)

Inductive outcome (A : Type) :=
| Ret (a : A)
| Raise (e : exn).
Arguments Ret {A} a.
Arguments Raise {A} e.

Definition M (A : Type) : Type := State -> outcome A * State.

Definition ret {A : Type} (a : A) : M A := fun s => (Ret a, s).

Definition raise {A : Type} (e : exn) : M A := fun s => (Raise e, s).

Definition bind {A B : Type} (m : M A) (k : A -> M B) : M B :=
  fun s =>
    match m s with
    | (Ret a, s') => k a s'
    | (Raise e, s') => (Raise e, s')
    end.

(** [try: m except <catches> as e: handler e] *)
Definition try_except {A : Type} (m : M A) (catches : exn -> bool)
    (handler : exn -> M A) : M A :=
  fun s =>
    match m s with
    | (Ret a, s') => (Ret a, s')
    | (Raise e, s') => if catches e then handler e s' else (Raise e, s')
    end.

Declare Scope script_scope.
Delimit Scope script_scope with script.
Notation "x <- m ;; k" := (bind m (fun x => k))
  (at level 61, m at next level, right associativity) : script_scope.
Notation "m ;; k" := (bind m (fun _ => k))
  (at level 61, right associativity) : script_scope.
Local Open Scope script_scope.

Definition gets {A : Type} (f : State -> A) : M A := fun s => (Ret (f s), s).

Definition show (m : Msg) : M unit :=
  fun s => (Ret tt,
            mkState (blobs s) (faults s) (calls s) (utcnow s) (timer s)
                    (cache s) (prompt_data s) (ui s ++ [m])).

Definition st_warning (text : str) : M unit := show (Warning text).
Definition st_info (text : str) : M unit := show (Info text).
Definition st_error (text : str) : M unit := show (Error text).
Definition st_success (text : str) : M unit := show (Success text).

(** [st.rerun()] stops the run by raising. *)
Definition st_rerun : M unit := raise RerunException.

(** [st.session_state.prompt_data = d] *)
Definition set_prompt_data (d : Document) : M unit :=
  fun s => (Ret tt,
            mkState (blobs s) (faults s) (calls s) (utcnow s) (timer s)
                    (cache s) (Some d) (ui s)).

(** ** The blob service *)

Fixpoint blob_lookup (name : str) (bs : list (str * str)) : option str :=
  match bs with
  | [] => None
  | (n, d) :: rest => if str_eqb n name then Some d else blob_lookup name rest
  end.

(** Writing with [overwrite=True]: an existing blob of that name is
    replaced, otherwise the blob is added. *)
Fixpoint blob_put (name data : str) (bs : list (str * str)) : list (str * str) :=
  match bs with
  | [] => [(name, data)]
  | (n, d) :: rest =>
      if str_eqb n name then (n, data) :: rest
      else (n, d) :: blob_put name data rest
  end.

(** Modelled from the spec: the Azure SDK is not part of the repository;
    this is the Backend Adapter contract of the specification (list by
    prefix in no guaranteed order, get failing when the key is absent, put
    with overwrite failing on backend rejection).  Every request is
    recorded in [calls] and takes the next entry of [faults]: [Some msg]
    makes the request raise, without any effect on the container. *)
Definition request (c : Call) : M unit :=
  fun s =>
    let s' := mkState (blobs s) (tl (faults s)) (calls s ++ [c]) (utcnow s)
                      (timer s) (cache s) (prompt_data s) (ui s) in
    match faults s with
    | Some msg :: _ => (Raise (ServiceError msg), s')
    | _ => (Ret tt, s')
    end.

(** [BlobServiceClient.from_connection_string(..).get_container_client(..)] *)
Definition get_container_client : M unit := request CallConnect.

(** [list(container_client.list_blobs(name_starts_with=prefix))], each
    blob represented by its name. *)
Definition list_blobs (prefix : str) : M (list str) :=
  request (CallList prefix) ;;
  gets (fun s => filter (startswith prefix) (List.map fst (blobs s))).

(** [container_client.get_blob_client(name).download_blob().readall()] *)
Definition download_blob (name : str) : M str :=
  request (CallDownload name) ;;
  found <- gets (fun s => blob_lookup name (blobs s)) ;;
  match found with
  | Some data => ret data
  | None => raise (ServiceError (lit "BlobNotFound"))
  end.

(** [container_client.upload_blob(name=.., data=.., overwrite=True)] *)
Definition upload_blob (name data : str) : M unit :=
  request (CallUpload name data) ;;
  fun s => (Ret tt,
            mkState (blob_put name data (blobs s)) (faults s) (calls s)
                    (utcnow s) (timer s) (cache s) (prompt_data s) (ui s)).

(** ** The cache of [st.cache_data] *)

Definition TTL : N := 300.

(** Modelled from the spec: the decorator [st.cache_data(ttl=300)] belongs
    to Streamlit, not to the repository; this is the Document Cache of the
    specification: the cached value is returned while its age is below
    the time to live, otherwise the function runs and its result is
    stored with the current time. *)
Definition cache_data (f : M Document) : M Document :=
  fun s =>
    let refresh :=
      match f s with
      | (Ret d, s') =>
          (Ret d,
           mkState (blobs s') (faults s') (calls s') (utcnow s') (timer s')
                   (Some (d, timer s')) (prompt_data s') (ui s'))
      | (Raise e, s') => (Raise e, s')
      end in
    match cache s with
    | Some (d, fetched) =>
        if (timer s <? fetched + TTL)%N then (Ret d, s) else refresh
    | None => refresh
    end.

(** [st.cache_data.clear()] *)
Definition cache_data_clear : M unit :=
  fun s => (Ret tt,
            mkState (blobs s) (faults s) (calls s) (utcnow s) (timer s)
                    None (prompt_data s) (ui s)).

(** ** The script *)

(** What [json.loads] does with a text: it returns the value, raises
    [JSONDecodeError] on text that is not JSON, or raises [RecursionError]
    on text nested deeper than the interpreter's recursion limit, which it
    meets before it can tell whether the text is JSON. *)
Inductive parsed :=
| Parsed (d : Document)
| DecodeError (msg : str)
| DepthExceeded (msg : str).

Section Script.

(** [json.loads] and [json.dumps(.., indent=n)] come from Python's
    standard library; the script is embedded over any pair of them. *)
Variable json_loads : str -> parsed.
Variable json_dumps : N -> Document -> str.

Definition loads (text : str) : M Document :=
  match json_loads text with
  | Parsed d => ret d
  | DecodeError msg => raise (JSONDecodeError msg)
  | DepthExceeded msg => raise (RecursionError msg)
  end.

(** The body of [download_latest_prompt_repo_from_blob]. *)
Definition download_latest_body : M Document :=
  try_except
    (get_container_client ;;
     blob_list <- list_blobs (lit "prompt_repo_") ;;
     match blob_list with
     | [] =>
         st_warning (lit "No prompt repository found in Azure Blob Storage. Creating a default structure.") ;;
         ret default_document
     | _ :: _ =>
         match py_max blob_list with
         | None => raise ValueError
         | Some latest_blob =>
             st_info (lit "Loading latest version: " ++ latest_blob) ;;
             data <- download_blob latest_blob ;;
             loads data
         end
     end)
    is_Exception
    (fun e =>
       st_error (lit "Failed to load data from Azure Blob Storage: " ++ exn_str e) ;;
       ret empty_apps_document).

(** [download_latest_prompt_repo_from_blob], as decorated. *)
Definition download_latest_prompt_repo_from_blob : M Document :=
  cache_data download_latest_body.

Definition upload_prompt_repo_to_blob (data_to_upload : Document) : M bool :=
  try_except
    (get_container_client ;;
     now <- gets utcnow ;;
     let timestamp := strftime now in
     let new_blob_name := lit "prompt_repo_" ++ timestamp ++ lit ".json" in
     upload_blob new_blob_name (json_dumps 4 data_to_upload) ;;
     st_success (lit "Successfully uploaded to Azure as " ++ new_blob_name) ;;
     ret true)
    is_Exception
    (fun e =>
       st_error (lit "Failed to upload to Azure Blob Storage: " ++ exn_str e) ;;
       ret false).

(** *** Prompt selection (the edit page) *)

(** [data["APPS"][0].get("prompts", [])].  The page is only rendered when
    [data.get("APPS")] is a non-empty list; without the key the subscript
    raises [KeyError], on an empty list [IndexError]. *)
Definition prompt_list_of (data : Document) : outcome (list Prompt) :=
  match APPS data with
  | None => Raise KeyError
  | Some [] => Raise IndexError
  | Some (app0 :: _) =>
      Ret match a_prompts app0 with Some l => l | None => [] end
  end.

Fixpoint names_from (i : nat) (l : list Prompt) : list str :=
  match l with
  | [] => []
  | p :: rest =>
      match p_name p with
      | Some n => n
      | None => lit "Unnamed Prompt " ++ dec (N.of_nat i)
      end :: names_from (S i) rest
  end.

(** [[p.get("name", f"Unnamed Prompt {i}") for i, p in enumerate(prompt_list)]] *)
Definition prompt_names (prompt_list : list Prompt) : list str :=
  names_from 0 prompt_list.

(** [st.selectbox(label, options)]: the option at the position the user
    picked (the first one until they pick), [None] when there is no
    option.  The widget only offers positions of existing options. *)
Definition selectbox (options : list str) (choice : nat) : option str :=
  nth_error options choice.

(** Truth value of a string: false exactly for the empty one. *)
Definition truthy (x : str) : bool :=
  match x with [] => false | _ :: _ => true end.

(** [not l] for a list. *)
Definition is_empty {A : Type} (l : list A) : bool :=
  match l with [] => true | _ :: _ => false end.

(** [prompt_names.index(selected_prompt_name) if selected_prompt_name else -1] *)
Definition selected_index_of (names : list str) (selected_prompt_name : option str)
  : outcome Z :=
  match selected_prompt_name with
  | Some name =>
      if truthy name
      then match py_index names name with
           | Some i => Ret (Z.of_nat i)
           | None => Raise ValueError
           end
      else Ret (-1)%Z
  | None => Ret (-1)%Z
  end.

(** Lines 111 to 113: [prompt_list[selected_index].get("content", [])]
    joined, or the empty text when nothing is selected. *)
Definition initial_content_of (prompt_list : list Prompt) (selected_index : Z)
  : outcome str :=
  if (selected_index =? -1)%Z then Ret []
  else match py_getitem prompt_list selected_index with
       | Some p =>
           Ret (join_nl match p_content p with Some c => c | None => [] end)
       | None => Raise IndexError
       end.

Record Selection := mkSelection {
  selected_prompt_name : option str;
  selected_index : Z;
  initial_content_str : str }.

(** A pure step of the script that may raise. *)
Definition lift {A : Type} (o : outcome A) : M A := fun s => (o, s).

(** Lines 105 to 113: from the document and the position picked in the
    select box to the selected name, its index and the text offered for
    editing. *)
Definition select_prompt (data : Document) (choice : nat) : M Selection :=
  prompt_list <- lift (prompt_list_of data) ;;
  let prompt_names := prompt_names prompt_list in
  (if is_empty prompt_names
   then st_warning (lit "No prompts found in the repository.")
   else ret tt) ;;
  let selected_prompt_name := selectbox prompt_names choice in
  selected_index <- lift (selected_index_of prompt_names selected_prompt_name) ;;
  initial_content_str <- lift (initial_content_of prompt_list selected_index) ;;
  ret (mkSelection selected_prompt_name selected_index initial_content_str).

(** *** The button handlers *)

(** [updated_data = copy.deepcopy(data)] followed by
    [updated_data["APPS"][0]["prompts"][i]["content"] = lines]: a missing
    key raises [KeyError], a position outside a list [IndexError]. *)
Definition with_content (data : Document) (i : Z) (lines : list str)
  : outcome Document :=
  match APPS data with
  | None => Raise KeyError
  | Some [] => Raise IndexError
  | Some (app0 :: apps) =>
      match a_prompts app0 with
      | None => Raise KeyError
      | Some prompt_list =>
          match py_getitem prompt_list i with
          | None => Raise IndexError
          | Some p =>
              match py_setitem prompt_list i (mkPrompt (p_name p) (Some lines)) with
              | None => Raise IndexError
              | Some prompt_list' =>
                  Ret (mkDocument (Some (mkApp (a_name app0) (Some prompt_list') :: apps)))
              end
          end
      end
  end.

(** The publish-and-commit tail both handlers share:
    [if upload_prompt_repo_to_blob(d): st.cache_data.clear(); st.session_state.prompt_data = d; st.rerun()] *)
Definition publish_and_commit (d : Document) : M unit :=
  ok <- upload_prompt_repo_to_blob d ;;
  if ok : bool
  then cache_data_clear ;; set_prompt_data d ;; st_rerun
  else ret tt.

(** [if st.button("Upload Changes to Azure"): ...] once the button is pressed. *)
Definition upload_changes (data : Document) (sel : Selection)
    (edited_content_str : str) : M unit :=
  if negb (selected_index sel =? -1)%Z
     && negb (str_eqb (strip edited_content_str) (strip (initial_content_str sel)))
  then
    updated_data <- lift (with_content data (selected_index sel)
                                       (split_nl edited_content_str)) ;;
    publish_and_commit updated_data
  else st_info (lit "No changes detected or no prompt selected.").

(** [if st.button("Upload Raw JSON to Azure"): ...] once the button is pressed. *)
Definition upload_raw_json (edited_raw_json : str) : M unit :=
  try_except
    (new_data <- loads edited_raw_json ;;
     publish_and_commit new_data)
    is_JSONDecodeError
    (fun _ => st_error (lit "Invalid JSON format.")).

(** Lines 95 to 99: the document held by the session, loaded through the
    cache when the session has none yet. *)
Definition current_document : M Document :=
  held <- gets prompt_data ;;
  match held with
  | Some data => ret data
  | None =>
      data <- download_latest_prompt_repo_from_blob ;;
      set_prompt_data data ;;
      ret data
  end.

End Script.

(** ** Notions of the specification *)

(** The keys of the container that carry the reserved prefix, in the
    order the service lists them. *)
Definition stored_keys (s : State) : list str :=
  filter (startswith (lit "prompt_repo_")) (List.map fst (blobs s)).

(** [k] is the lexicographic maximum of [keys]: a member that no member
    exceeds.  Only membership matters, not the order of [keys]. *)
Definition is_lex_max (k : str) (keys : list str) : Prop :=
  In k keys /\ forall k', In k' keys -> str_leb k' k = true.

(** The outcome scheduled for the [n]-th coming service call. *)
Definition fault_at (n : nat) (s : State) : option str :=
  nth n (faults s) None.

(** The key a publish at wall-clock time [t] writes. *)
Definition snapshot_key (t : datetime) : str :=
  lit "prompt_repo_" ++ strftime t ++ lit ".json".

(** The state as a later run finds it: time has passed and page elements
    were redrawn, while container, cache and session are as [s] left them. *)
Definition later (s s2 : State) : Prop :=
  blobs s2 = blobs s /\ cache s2 = cache s /\ prompt_data s2 = prompt_data s.

(** ** A codec and sample data to run the script on

    A compact JSON printer for documents and, as reader, its inverse on a
    fixed collection of documents; every other text is rejected, a text
    nested too deep by exceeding the recursion depth. *)

Definition quote : str := [34%N].

Definition json_string (x : str) : str := quote ++ x ++ quote.

Fixpoint comma_sep (items : list str) : str :=
  match items with
  | [] => []
  | [x] => x
  | x :: rest => x ++ lit ", " ++ comma_sep rest
  end.

Definition json_array (items : list str) : str :=
  lit "[" ++ comma_sep items ++ lit "]".

Definition json_object (fields : list (str * str)) : str :=
  lit "{" ++ comma_sep (List.map (fun kv => json_string (fst kv) ++ lit ": " ++ snd kv) fields)
  ++ lit "}".

Definition field {A : Type} (key : str) (print : A -> str) (v : option A)
  : list (str * str) :=
  match v with Some x => [(key, print x)] | None => [] end.

Definition print_prompt (p : Prompt) : str :=
  json_object (field (lit "name") json_string (p_name p)
               ++ field (lit "content")
                    (fun c => json_array (List.map json_string c)) (p_content p)).

Definition print_app (a : App) : str :=
  json_object (field (lit "name") json_string (a_name a)
               ++ field (lit "prompts")
                    (fun l => json_array (List.map print_prompt l)) (a_prompts a)).

Definition demo_dumps (indent : N) (d : Document) : str :=
  json_object (field (lit "APPS")
                 (fun l => json_array (List.map print_app l)) (APPS d)).

Definition demo_prompt (name : String.string) (content : list str) : Prompt :=
  mkPrompt (Some (lit name)) (Some content).
Arguments demo_prompt name%_pystr content.

Definition demo_document (prompts : list Prompt) : Document :=
  mkDocument (Some [mkApp (Some (lit "mmx")) (Some prompts)]).

(** One prompt, [greeting], with the lines [a] and [b]. *)
Definition doc_ab : Document :=
  demo_document [demo_prompt "greeting" [lit "a"; lit "b"]].

(** The same after the edit to [a], [b], [c]. *)
Definition doc_abc : Document :=
  demo_document [demo_prompt "greeting" [lit "a"; lit "b"; lit "c"]].

(** Two prompts of the same name. *)
Definition doc_twins : Document :=
  demo_document [demo_prompt "twin" [lit "first"]; demo_prompt "twin" [lit "second"]].

(** The same after an edit of the first twin. *)
Definition doc_twins_edited : Document :=
  demo_document [demo_prompt "twin" [lit "changed"]; demo_prompt "twin" [lit "second"]].

(** Two prompts whose name is the empty string. *)
Definition doc_nameless : Document :=
  demo_document [demo_prompt "" [lit "first"]; demo_prompt "" [lit "second"]].

Definition demo_corpus : list Document :=
  [default_document; empty_apps_document; doc_ab; doc_abc; doc_twins;
   doc_twins_edited; doc_nameless].

(** A thousand opening brackets: unterminated, so not JSON, and nested
    deeper than CPython's decoder goes. *)
Definition deep_text : str := repeat 91%N 1000.

(** The reader gives up on a text that opens with [deep_text], as
    CPython's [json.loads] does with a [RecursionError]. *)
Definition demo_loads (text : str) : parsed :=
  if startswith deep_text text
  then DepthExceeded (lit "maximum recursion depth exceeded")
  else
    match find (fun d => str_eqb (demo_dumps 4 d) text) demo_corpus with
    | Some d => Parsed d
    | None => DecodeError (lit "Expecting value")
    end.

Definition key_0900 : str := lit "prompt_repo_20240101_090000.json".
Definition key_1000 : str := lit "prompt_repo_20240101_100000.json".

Definition demo_state (bs : list (str * str)) (fs : list (option str))
    (t : datetime) : State :=
  mkState bs fs [] t 0 None None [].

(** 1 January 2024, 10:00:00 and 11:00:00 UTC. *)
Definition ten_o_clock : datetime := mkDatetime 2024 1 1 10 0 0.
Definition eleven_o_clock : datetime := mkDatetime 2024 1 1 11 0 0.

(** A container holding the 09:00 and 10:00 snapshots, listed oldest
    first, and the same container listed newest first. *)
Definition two_snapshots : list (str * str) :=
  [(key_0900, demo_dumps 4 default_document); (key_1000, demo_dumps 4 doc_ab)].
Definition two_snapshots_rev : list (str * str) :=
  [(key_1000, demo_dumps 4 doc_ab); (key_0900, demo_dumps 4 default_document)].

(** What [select_prompt] yields on [doc_ab]. *)
Definition sel_greeting : Selection :=
  mkSelection (Some (lit "greeting")) 0 (lit "a" ++ NL :: lit "b").

(** The texts [a\nb\nc] and [  a\nb\n]. *)
Definition text_abc : str := lit "a" ++ NL :: lit "b" ++ NL :: lit "c".
Definition text_ab_padded : str := lit "  a" ++ NL :: lit "b" ++ [NL].

(** A session at 11:00 that holds [doc_ab], loaded and cached a moment
    ago, with the service answering every request. *)
Definition editing_state : State :=
  mkState two_snapshots [] [] eleven_o_clock 10 (Some (doc_ab, 0%N))
          (Some doc_ab) [].

(** The same session when the service will accept the connection and
    reject the write. *)
Definition write_rejected_state : State :=
  mkState two_snapshots [None; Some (lit "write rejected")] []
          eleven_o_clock 10 (Some (doc_ab, 0%N)) (Some doc_ab) [].

(** A fresh process at 10:00 whose third request, the download, will time
    out. *)
Definition download_timeout_state : State :=
  demo_state two_snapshots [None; None; Some (lit "timeout")] ten_o_clock.

(** A container without any snapshot: its only blob lacks the prefix. *)
Definition no_snapshot_state : State :=
  demo_state [(lit "notes.json", lit "{}")] [] ten_o_clock.

(** ** The rest of the script: versions, preview and the page *)

(** [blob_list.sort(key=lambda b: b.name, reverse=True)], each blob
    represented by its name: the names in descending order. *)
Fixpoint insert_desc (x : str) (l : list str) : list str :=
  match l with
  | [] => [x]
  | y :: rest => if str_ltb x y then y :: insert_desc x rest else x :: l
  end.

Fixpoint sort_desc (l : list str) : list str :=
  match l with
  | [] => []
  | x :: rest => insert_desc x (sort_desc rest)
  end.

(** Every element is at least the next one. *)
Fixpoint descending (l : list str) : bool :=
  match l with
  | [] => true
  | x :: rest =>
      match rest with
      | [] => true
      | y :: _ => str_leb y x && descending rest
      end
  end.

(** Every element is greater than the next one. *)
Fixpoint strictly_descending (l : list str) : bool :=
  match l with
  | [] => true
  | x :: rest =>
      match rest with
      | [] => true
      | y :: _ => str_ltb y x && strictly_descending rest
      end
  end.

Definition is_upload (c : Call) : bool :=
  match c with CallUpload _ _ => true | _ => false end.

(** The write requests among the requests made. *)
Definition uploads (cs : list Call) : list Call := filter is_upload cs.

(** One wall-clock reading precedes another. *)
Definition datetime_ltb (a b : datetime) : bool :=
  let fields t := [year t; month t; day t; hour t; minute t; second t] in
  (fix lex (x y : list N) : bool :=
     match x, y with
     | u :: x', v :: y' =>
         if (u <? v)%N then true
         else if (v <? u)%N then false
         else lex x' y'
     | _, _ => false
     end) (fields a) (fields b).

(** The readings a wall clock gives: a year of four digits at most and
    calendar and clock fields within their ranges. *)
Definition clock_reading (t : datetime) : bool :=
  ((year t <=? 9999) && (1 <=? month t) && (month t <=? 12)
   && (1 <=? day t) && (day t <=? 31) && (hour t <=? 23)
   && (minute t <=? 59) && (second t <=? 59))%N.

(** What the user did on the page before a run: the positions picked in
    the two select boxes (the first option until they pick), the texts
    typed into the two text areas (none while untouched) and the button
    pressed, if any. *)
Record Input := mkInput {
  picked_prompt : nat;
  typed_content : option str;
  upload_changes_clicked : bool;
  picked_version : nat;
  preview_clicked : bool;
  typed_raw : option str;
  upload_raw_clicked : bool }.

(** [st.text_area(label, value=value)]: the text the user typed, the
    given value while they have typed nothing. *)
Definition text_area (value : str) (typed : option str) : str :=
  match typed with
  | Some text => text
  | None => value
  end.

(** The page is rendered unless [not data or not data.get("APPS")]. *)
Definition has_apps (data : Document) : bool :=
  match APPS data with
  | Some (_ :: _) => true
  | _ => false
  end.

Section Pages.

Variable json_loads : str -> parsed.
Variable json_dumps : N -> Document -> str.

Definition fetch_previous_blobs : M (list str) :=
  try_except
    (get_container_client ;;
     blob_list <- list_blobs (lit "prompt_repo_") ;;
     ret (sort_desc blob_list))
    is_Exception
    (fun e =>
       st_error (lit "Failed to fetch previous blobs: " ++ exn_str e) ;;
       ret []).

(** The parsed content, or [None] where the source returns [None]. *)
Definition load_blob_content_for_preview (blob_name : str) : M (option Document) :=
  try_except
    (get_container_client ;;
     data <- download_blob blob_name ;;
     d <- loads json_loads data ;;
     ret (Some d))
    is_Exception
    (fun e =>
       st_error (lit "Failed to load blob " ++ blob_name ++ lit ": " ++ exn_str e) ;;
       ret None).

(** Lines 95 to 126: the session's document, the page guard, the prompt
    selection, the content editor and its upload button. *)
Definition edit_column (inp : Input) : M (option Document) :=
  data <- current_document json_loads ;;
  if negb (has_apps data)
  then
    st_error (lit "Could not load a valid prompt structure from Azure. Please check the connection string and container name.") ;;
    ret None
  else
    sel <- select_prompt data (picked_prompt inp) ;;
    let edited_content_str :=
      text_area (initial_content_str sel) (typed_content inp) in
    (if upload_changes_clicked inp
     then upload_changes json_dumps data sel edited_content_str
     else ret tt) ;;
    ret (Some data).

(** Lines 129 to 139, the column of previous versions.  The value of
    [st.session_state.preview_data] is passed in and out: [None] while the
    key is not set, [Some None] when the last preview failed. *)
Definition versions_column (inp : Input) (preview_data : option (option Document))
  : M (option (option Document)) :=
  previous_blobs <- fetch_previous_blobs ;;
  if is_empty previous_blobs then ret preview_data
  else
    match selectbox previous_blobs (picked_version inp) with
    | Some selected_blob =>
        if preview_clicked inp
        then
          content <- load_blob_content_for_preview selected_blob ;;
          ret (Some content)
        else ret preview_data
    | None => ret preview_data
    end.

(** Lines 140 to 151, the raw JSON editor and its upload button. *)
Definition raw_column (inp : Input) (data : Document) : M unit :=
  let edited_raw_json := text_area (json_dumps 2 data) (typed_raw inp) in
  if upload_raw_clicked inp
  then upload_raw_json json_loads json_dumps edited_raw_json
  else ret tt.

(** One run of the script from line 93 on. *)
Definition script (inp : Input) (preview_data : option (option Document))
  : M (option (option Document)) :=
  page <- edit_column inp ;;
  match page with
  | None => ret preview_data
  | Some data =>
      preview_data' <- versions_column inp preview_data ;;
      raw_column inp data ;;
      ret preview_data'
  end.

End Pages.

(** ** What a part of the script may do *)





(** ** More sample data *)

(** A session in which the first load failed: it holds the empty-apps
    document. *)
Definition degraded_state : State :=
  mkState two_snapshots [] [] eleven_o_clock 10 None
          (Some empty_apps_document) [].

(** A new session at 11:00, nothing cached, the service answering. *)
Definition fresh_state : State :=
  mkState two_snapshots [] [] eleven_o_clock 10 None None [].

(** A new process whose connection fails. *)
Definition offline_state : State :=
  mkState two_snapshots [Some (lit "no route")] [] ten_o_clock 0 None None [].

(** The page as it is opened, nothing picked, typed or pressed. *)
Definition idle : Input := mkInput 0 None false 0 false None false.


Definition key_1100 : str := lit "prompt_repo_20240101_110000.json".

(** * Properties *)

(** ** Strings: equality and order *)

Lemma str_eqb_eq (a b : str) : str_eqb a b = true <-> a = b.
Proof.
  revert b. induction a as [|x a IH]; intros [|y b]; simpl; split;
    try reflexivity; try discriminate.
  - intros H. apply andb_true_iff in H as [Hx Hr].
    apply N.eqb_eq in Hx. apply IH in Hr. congruence.
  - intros H. injection H as -> ->.
    apply andb_true_iff. split; [apply N.eqb_refl | now apply IH].
Qed.

Lemma str_eqb_refl (a : str) : str_eqb a a = true.
Proof. now apply str_eqb_eq. Qed.

Lemma str_eqb_neq (a b : str) : str_eqb a b = false <-> a <> b.
Proof.
  split.
  - intros H E. apply str_eqb_eq in E. congruence.
  - intros H. destruct (str_eqb a b) eqn:E; [|reflexivity].
    apply str_eqb_eq in E. contradiction.
Qed.

Lemma str_ltb_irrefl (a : str) : str_ltb a a = false.
Proof.
  induction a as [|x a IH]; simpl; [reflexivity|].
  now rewrite N.ltb_irrefl.
Qed.

Lemma str_ltb_trans (a b c : str) :
  str_ltb a b = true -> str_ltb b c = true -> str_ltb a c = true.
Proof.
  revert b c. induction a as [|x a IH]; intros [|y b] [|z c]; simpl;
    try discriminate; try reflexivity.
  destruct (N.ltb_spec x y), (N.ltb_spec y x), (N.ltb_spec y z),
    (N.ltb_spec z y), (N.ltb_spec x z), (N.ltb_spec z x);
    try discriminate; try reflexivity; try lia.
  apply IH.
Qed.

(** Neither smaller nor greater means equal: the order is total. *)
Lemma str_ltb_antisym (a b : str) :
  str_ltb a b = false -> str_ltb b a = false -> a = b.
Proof.
  revert b. induction a as [|x a IH]; intros [|y b]; simpl;
    try discriminate; try reflexivity.
  destruct (N.ltb_spec x y), (N.ltb_spec y x); try discriminate; try lia.
  intros H1 H2. f_equal; [now apply N.le_antisymm | now apply IH].
Qed.

Lemma str_ltb_asym (a b : str) : str_ltb a b = true -> str_ltb b a = false.
Proof.
  intros H. destruct (str_ltb b a) eqn:E; [|reflexivity].
  pose proof (str_ltb_trans _ _ _ H E) as F.
  rewrite str_ltb_irrefl in F. discriminate.
Qed.

Lemma str_leb_refl (a : str) : str_leb a a = true.
Proof. unfold str_leb. now rewrite str_ltb_irrefl. Qed.

Lemma str_leb_trans (a b c : str) :
  str_leb a b = true -> str_leb b c = true -> str_leb a c = true.
Proof.
  unfold str_leb. intros H1 H2.
  apply negb_true_iff in H1, H2. apply negb_true_iff.
  destruct (str_ltb c a) eqn:E; [|reflexivity].
  destruct (str_ltb a b) eqn:F.
  - pose proof (str_ltb_trans _ _ _ E F). congruence.
  - assert (a = b) by now apply str_ltb_antisym. subst. congruence.
Qed.

Lemma str_leb_antisym (a b : str) :
  str_leb a b = true -> str_leb b a = true -> a = b.
Proof.
  unfold str_leb. intros H1 H2. apply negb_true_iff in H1, H2.
  now apply str_ltb_antisym.
Qed.

Lemma str_ltb_leb (a b : str) : str_ltb a b = true -> str_leb a b = true.
Proof. intros H. unfold str_leb. now rewrite (str_ltb_asym _ _ H). Qed.

(** ** The maximum and its independence of the listing order *)

Lemma max_from_above_best (l : list str) (best : str) :
  str_leb best (max_from best l) = true.
Proof.
  revert best. induction l as [|x l IH]; intros best; simpl.
  - apply str_leb_refl.
  - destruct (str_ltb best x) eqn:E; [|apply IH].
    apply (str_leb_trans best x); [now apply str_ltb_leb | apply IH].
Qed.

Lemma max_from_above (l : list str) (best x : str) :
  In x l -> str_leb x (max_from best l) = true.
Proof.
  revert best. induction l as [|y l IH]; intros best Hin; [contradiction|].
  destruct Hin as [E|Hin]; simpl.
  - subst y. destruct (str_ltb best x) eqn:E.
    + apply max_from_above_best.
    + apply (str_leb_trans x best); [|apply max_from_above_best].
      unfold str_leb. now rewrite E.
  - destruct (str_ltb best y); now apply IH.
Qed.

Lemma max_from_in (l : list str) (best : str) :
  In (max_from best l) (best :: l).
Proof.
  revert best. induction l as [|y l IH]; intros best; simpl.
  - now left.
  - destruct (str_ltb best y).
    + right. apply IH.
    + destruct (IH best) as [E|Hin]; [now left | now right; right].
Qed.

Lemma py_max_is_lex_max (l : list str) (k : str) :
  py_max l = Some k -> is_lex_max k l.
Proof.
  destruct l as [|x l]; simpl; [discriminate|].
  intros H. injection H as <-. split.
  - apply max_from_in.
  - intros k' [E|Hin].
    + subst. apply max_from_above_best.
    + now apply max_from_above.
Qed.

Lemma is_lex_max_unique (k k' : str) (l : list str) :
  is_lex_max k l -> is_lex_max k' l -> k = k'.
Proof.
  intros [Hin Hmax] [Hin' Hmax']. apply str_leb_antisym; auto.
Qed.

Lemma is_lex_max_perm (k : str) (l l' : list str) :
  Permutation l l' -> is_lex_max k l -> is_lex_max k l'.
Proof.
  intros HP [Hin Hmax]. split.
  - now apply (Permutation_in _ HP).
  - intros k' Hin'. apply Hmax.
    now apply (Permutation_in _ (Permutation_sym HP)).
Qed.

Lemma py_max_some (l : list str) : l <> [] -> exists k, py_max l = Some k.
Proof. destruct l; [congruence | eexists; reflexivity]. Qed.

(** The maximum the script computes is the lexicographic maximum of the
    key set. *)
Lemma py_max_lex_max (l : list str) (k : str) :
  is_lex_max k l -> py_max l = Some k.
Proof.
  intros H. destruct (py_max_some (l := l)) as [k' Hk'].
  - destruct H as [Hin _]. intros ->. contradiction.
  - rewrite Hk'. f_equal. apply py_max_is_lex_max in Hk'.
    eapply is_lex_max_unique; eauto.
Qed.

(** ** Running the blob functions *)

Section Properties.

Variable json_loads : str -> parsed.
Variable json_dumps : N -> Document -> str.

(* Literals stay folded while the script is stepped through. *)
Opaque lit.

Ltac unfold_script :=
  unfold download_latest_prompt_repo_from_blob, download_latest_body,
    upload_prompt_repo_to_blob, publish_and_commit, upload_changes,
    upload_raw_json, current_document, loads, cache_data, cache_data_clear,
    get_container_client, list_blobs, download_blob, upload_blob, request,
    st_warning, st_info, st_error, st_success, st_rerun, show,
    set_prompt_data, gets, try_except, bind, ret, raise, stored_keys,
    fault_at in *.

(** With no snapshot in the container, and the service answering, the
    default document is returned; the run consisted of a connect and a
    list request and left the container as it was. *)
Lemma load_default_run (s : State) :
  fault_at 0 s = None -> fault_at 1 s = None -> stored_keys s = [] ->
  fst (download_latest_body json_loads s) = Ret default_document
  /\ blobs (snd (download_latest_body json_loads s)) = blobs s
  /\ calls (snd (download_latest_body json_loads s))
     = calls s ++ [CallConnect; CallList (lit "prompt_repo_")].
Proof.
  destruct s as [bs fs cs t tm ca pd u]. unfold_script. simpl.
  intros F0 F1 K.
  destruct fs as [|[m0|] [|[m1|] fs]]; simpl in *; try discriminate;
    rewrite K; simpl; rewrite <- app_assoc; auto.
Qed.

Lemma load_never_writes (s : State) :
  blobs (snd (download_latest_body json_loads s)) = blobs s.
Proof.
  destruct s as [bs fs cs t tm ca pd u]. unfold_script. simpl.
  destruct fs as [|[m0|] fs]; simpl; try reflexivity;
    try (destruct fs as [|[m1|] fs]; simpl; try reflexivity);
    try (destruct (filter _ _) as [|x keys]; simpl; try reflexivity);
    try (destruct fs as [|[m2|] fs]; simpl; try reflexivity);
    try (destruct (blob_lookup _ bs); simpl; try reflexivity);
    try (destruct (json_loads _); reflexivity).
Qed.

Lemma load_never_raises (s : State) :
  exists d, fst (download_latest_body json_loads s) = Ret d.
Proof.
  destruct s as [bs fs cs t tm ca pd u]. unfold_script. simpl.
  destruct fs as [|[m0|] fs]; simpl; eauto;
    try (destruct fs as [|[m1|] fs]; simpl; eauto);
    try (destruct (filter _ _) as [|x keys]; simpl; eauto);
    try (destruct fs as [|[m2|] fs]; simpl; eauto);
    try (destruct (blob_lookup _ bs); simpl; eauto);
    try (destruct (json_loads _); simpl; eauto).
Qed.

Lemma load_connect_fault (s : State) (msg : str) :
  fault_at 0 s = Some msg ->
  fst (download_latest_body json_loads s) = Ret empty_apps_document.
Proof.
  destruct s as [bs fs cs t tm ca pd u]. unfold_script. simpl.
  destruct fs as [|[m0|] fs]; simpl; try discriminate. reflexivity.
Qed.

Lemma load_list_fault (s : State) (msg : str) :
  fault_at 0 s = None -> fault_at 1 s = Some msg ->
  fst (download_latest_body json_loads s) = Ret empty_apps_document.
Proof.
  destruct s as [bs fs cs t tm ca pd u]. unfold_script. simpl.
  destruct fs as [|[m0|] [|[m1|] fs]]; simpl; try discriminate. reflexivity.
Qed.

(** With the service answering the connect and list requests, the run
    downloads the lexicographic maximum of the stored keys and nothing
    else, and returns what that blob parses to; a failing download or a
    failing parse gives the empty-apps document. *)
Lemma load_selects (s : State) (k : str) :
  fault_at 0 s = None -> fault_at 1 s = None ->
  is_lex_max k (stored_keys s) ->
  calls (snd (download_latest_body json_loads s))
  = calls s ++ [CallConnect; CallList (lit "prompt_repo_"); CallDownload k]
  /\ fst (download_latest_body json_loads s)
     = match fault_at 2 s, blob_lookup k (blobs s) with
       | None, Some data =>
           match json_loads data with
           | Parsed d => Ret d
           | _ => Ret empty_apps_document
           end
       | _, _ => Ret empty_apps_document
       end.
Proof.
  intros F0 F1 Hmax.
  pose proof (py_max_lex_max Hmax) as Hpy.
  destruct s as [bs fs cs t tm ca pd u]. unfold_script. simpl in *.
  clear Hmax.
  destruct fs as [|[m0|] fs]; simpl in *; try discriminate;
    try (destruct fs as [|[m1|] fs]; simpl in *; try discriminate);
    revert Hpy;
    (destruct (filter _ (List.map fst bs)) as [|x keys]; [discriminate|]);
    simpl; intros Hpy; injection Hpy as ->;
    try (destruct fs as [|[m2|] fs]; simpl);
    repeat rewrite <- app_assoc; simpl;
    try (destruct (blob_lookup _ bs); simpl);
    try (destruct (json_loads _); simpl);
    split; reflexivity.
Qed.

(** The stored key blob of a listed key is there. *)
Lemma blob_lookup_listed (k : str) (bs : list (str * str)) :
  In k (List.map fst bs) -> exists data, blob_lookup k bs = Some data.
Proof.
  induction bs as [|[n d] bs IH]; simpl; [contradiction|].
  intros [E|Hin].
  - subst. rewrite str_eqb_refl. eauto.
  - destruct (str_eqb n k); eauto.
Qed.

Lemma stored_key_has_blob (s : State) (k : str) :
  In k (stored_keys s) -> exists data, blob_lookup k (blobs s) = Some data.
Proof.
  unfold stored_keys. intros H. apply filter_In in H as [H _].
  now apply blob_lookup_listed.
Qed.

(** The decorated function runs the body whenever the cache is empty. *)
Lemma cache_miss (s : State) :
  cache s = None ->
  fst (download_latest_prompt_repo_from_blob json_loads s)
  = fst (download_latest_body json_loads s)
  /\ blobs (snd (download_latest_prompt_repo_from_blob json_loads s))
     = blobs (snd (download_latest_body json_loads s)).
Proof.
  intros H. unfold download_latest_prompt_repo_from_blob, cache_data.
  rewrite H. destruct (download_latest_body json_loads s) as [[d|e] s'];
    simpl; auto.
Qed.

(** ** Publishing *)

Lemma upload_never_raises (d : Document) (s : State) :
  exists ok, fst (upload_prompt_repo_to_blob json_dumps d s) = Ret ok.
Proof.
  destruct s as [bs fs cs t tm ca pd u]. unfold_script. simpl.
  destruct fs as [|[m0|] fs]; simpl; eauto;
    destruct fs as [|[m1|] fs]; simpl; eauto.
Qed.

(** The publish fails exactly when the service rejects the connection or
    the write. *)
Lemma upload_fails_iff (d : Document) (s : State) :
  fst (upload_prompt_repo_to_blob json_dumps d s) = Ret false
  <-> fault_at 0 s <> None \/ fault_at 1 s <> None.
Proof.
  destruct s as [bs fs cs t tm ca pd u]. unfold_script. simpl.
  destruct fs as [|[m0|] fs]; simpl;
    try (destruct fs as [|[m1|] fs]; simpl);
    (split; [intros H; try discriminate; auto; try (left; discriminate);
             try (right; discriminate)
            | intros [H|H]; try reflexivity; try congruence ]).
Qed.

(** A failed publish changes neither the container, nor the cache, nor
    the session. *)
Lemma upload_failure_frame (d : Document) (s : State) :
  fst (upload_prompt_repo_to_blob json_dumps d s) = Ret false ->
  blobs (snd (upload_prompt_repo_to_blob json_dumps d s)) = blobs s
  /\ cache (snd (upload_prompt_repo_to_blob json_dumps d s)) = cache s
  /\ prompt_data (snd (upload_prompt_repo_to_blob json_dumps d s)) = prompt_data s.
Proof.
  destruct s as [bs fs cs t tm ca pd u]. unfold_script. simpl.
  destruct fs as [|[m0|] fs]; simpl;
    try (destruct fs as [|[m1|] fs]; simpl);
    intros H; try discriminate; auto.
Qed.

(** A successful publish wrote the serialized document under the key of
    the current second and touched neither cache nor session. *)
Lemma upload_success_frame (d : Document) (s : State) :
  fst (upload_prompt_repo_to_blob json_dumps d s) = Ret true ->
  blobs (snd (upload_prompt_repo_to_blob json_dumps d s))
  = blob_put (snapshot_key (utcnow s)) (json_dumps 4 d) (blobs s)
  /\ cache (snd (upload_prompt_repo_to_blob json_dumps d s)) = cache s
  /\ prompt_data (snd (upload_prompt_repo_to_blob json_dumps d s)) = prompt_data s.
Proof.
  destruct s as [bs fs cs t tm ca pd u]. unfold_script. simpl.
  destruct fs as [|[m0|] fs]; simpl;
    try (destruct fs as [|[m1|] fs]; simpl);
    intros H; try discriminate; auto.
Qed.

(** What the shared tail of the handlers does, by result of the publish. *)
Lemma publish_and_commit_failure (d : Document) (s : State) :
  fst (upload_prompt_repo_to_blob json_dumps d s) = Ret false ->
  publish_and_commit json_dumps d s
  = (Ret tt, snd (upload_prompt_repo_to_blob json_dumps d s)).
Proof.
  unfold publish_and_commit, bind.
  destruct (upload_prompt_repo_to_blob json_dumps d s) as [[ok|e] s'];
    simpl; intros H; [|discriminate].
  injection H as ->. reflexivity.
Qed.

Lemma publish_and_commit_success (d : Document) (s : State) :
  fst (upload_prompt_repo_to_blob json_dumps d s) = Ret true ->
  fst (publish_and_commit json_dumps d s) = Raise RerunException
  /\ blobs (snd (publish_and_commit json_dumps d s))
     = blob_put (snapshot_key (utcnow s)) (json_dumps 4 d) (blobs s)
  /\ cache (snd (publish_and_commit json_dumps d s)) = None
  /\ prompt_data (snd (publish_and_commit json_dumps d s)) = Some d.
Proof.
  intros H. destruct (upload_success_frame d s H) as (Hb & _ & _).
  revert H Hb. unfold publish_and_commit, bind.
  destruct (upload_prompt_repo_to_blob json_dumps d s) as [[ok|e] s'];
    simpl; intros H Hb; [|discriminate].
  injection H as ->. unfold_script. simpl. auto.
Qed.

(** ** The container after a write *)

Lemma blob_lookup_put (k v : str) (bs : list (str * str)) :
  blob_lookup k (blob_put k v bs) = Some v.
Proof.
  induction bs as [|[n d] bs IH]; simpl.
  - now rewrite str_eqb_refl.
  - destruct (str_eqb n k) eqn:E; simpl; rewrite E; auto.
Qed.

Lemma blob_put_names (k v x : str) (bs : list (str * str)) :
  In x (List.map fst (blob_put k v bs)) <-> x = k \/ In x (List.map fst bs).
Proof.
  induction bs as [|[n d] bs IH]; simpl.
  - intuition.
  - destruct (str_eqb n k) eqn:E; simpl.
    + apply str_eqb_eq in E. subst. intuition.
    + rewrite IH. intuition.
Qed.

Lemma startswith_app (p x : str) : startswith p (p ++ x) = true.
Proof.
  induction p as [|c p IH]; simpl; [reflexivity|].
  unfold char_eqb. now rewrite N.eqb_refl.
Qed.

Lemma snapshot_key_reserved (t : datetime) :
  startswith (lit "prompt_repo_") (snapshot_key t) = true.
Proof. unfold snapshot_key. apply startswith_app. Qed.

(** After a write under a key that no stored key exceeds, that key is the
    lexicographic maximum of the stored keys. *)
Lemma put_key_is_lex_max (s s' : State) (t : datetime) (v : str) :
  blobs s' = blob_put (snapshot_key t) v (blobs s) ->
  (forall k', In k' (stored_keys s) -> str_leb k' (snapshot_key t) = true) ->
  is_lex_max (snapshot_key t) (stored_keys s').
Proof.
  intros Hb Hle. unfold stored_keys in *. rewrite Hb. split.
  - apply filter_In. split.
    + apply blob_put_names. now left.
    + apply snapshot_key_reserved.
  - intros k' Hin. apply filter_In in Hin as [Hin Hp].
    apply blob_put_names in Hin as [->|Hin].
    + apply str_leb_refl.
    + apply Hle. apply filter_In. auto.
Qed.

Lemma upload_changes_publishes (data : Document) (sel : Selection)
    (edited : str) (candidate : Document) (s : State) :
  selected_index sel <> (-1)%Z ->
  strip edited <> strip (initial_content_str sel) ->
  with_content data (selected_index sel) (split_nl edited) = Ret candidate ->
  upload_changes json_dumps data sel edited s
  = publish_and_commit json_dumps candidate s.
Proof.
  intros Hidx Hdiff Hcand. unfold upload_changes.
  apply Z.eqb_neq in Hidx. apply str_eqb_neq in Hdiff.
  rewrite Hidx, Hdiff, Hcand. reflexivity.
Qed.

Lemma current_document_held (d : Document) (s : State) :
  prompt_data s = Some d -> current_document json_loads s = (Ret d, s).
Proof.
  intros H. unfold current_document, bind, gets, ret. now rewrite H.
Qed.

(** ** The claims on loading *)

(** C2: the service answering, for every non-empty set [keys] of stored
    keys with the reserved prefix, whatever the order in which the service
    lists them, loading downloads the lexicographic maximum of the set and
    nothing else, and returns what that blob parses to (the empty-apps
    document if the download or the parse fails). *)
Theorem load_latest_selects_lex_max (s : State) (keys : list str) :
  fault_at 0 s = None -> fault_at 1 s = None ->
  Permutation keys (stored_keys s) ->
  keys <> [] ->
  exists k data,
    is_lex_max k keys
    /\ blob_lookup k (blobs s) = Some data
    /\ calls (snd (download_latest_body json_loads s))
       = calls s ++ [CallConnect; CallList (lit "prompt_repo_"); CallDownload k]
    /\ fst (download_latest_body json_loads s)
       = match fault_at 2 s, json_loads data with
         | None, Parsed d => Ret d
         | _, _ => Ret empty_apps_document
         end.
Proof.
  intros F0 F1 HP Hne.
  destruct (py_max_some Hne) as [k Hk].
  apply py_max_is_lex_max in Hk.
  pose proof (is_lex_max_perm HP Hk) as Hmax.
  destruct (stored_key_has_blob s k (proj1 Hmax)) as [data Hdata].
  exists k, data.
  destruct (load_selects s F0 F1 Hmax) as [Hcalls Hres].
  split; [exact Hk|]. split; [exact Hdata|]. split; [exact Hcalls|].
  rewrite Hres, Hdata. destruct (fault_at 2 s); reflexivity.
Qed.

(** C3: with no key of the reserved prefix in the container, and the
    service answering, loading returns the default document
    [{"APPS": [{"name": "mmx", "prompts": []}]}]; its only requests are
    the connect and the list, and the container is left as it was (which
    holds for every load, whatever it returns). *)
Theorem load_latest_default_without_write (s : State) :
  fault_at 0 s = None -> fault_at 1 s = None ->
  stored_keys s = [] ->
  fst (download_latest_body json_loads s) = Ret default_document
  /\ calls (snd (download_latest_body json_loads s))
     = calls s ++ [CallConnect; CallList (lit "prompt_repo_")]
  /\ blobs (snd (download_latest_body json_loads s)) = blobs s
  /\ (cache s = None ->
      fst (download_latest_prompt_repo_from_blob json_loads s) = Ret default_document
      /\ blobs (snd (download_latest_prompt_repo_from_blob json_loads s)) = blobs s).
Proof.
  intros F0 F1 K.
  destruct (load_default_run s F0 F1 K) as (Hres & Hb & Hc).
  repeat split; auto.
  - destruct (cache_miss s H) as [E _]. congruence.
  - destruct (cache_miss s H) as [_ E]. congruence.
Qed.

(** C6: loading never raises; whenever the connection, the listing or the
    download of the latest snapshot fails, or the downloaded text does not
    parse (whichever exception [json.loads] raises), it returns the
    empty-apps document [{"APPS": []}], which is not the default document
    returned when there is no snapshot. *)
Theorem load_latest_failure_degrades (s : State) :
  (exists d, fst (download_latest_body json_loads s) = Ret d)
  /\ (fault_at 0 s <> None ->
      fst (download_latest_body json_loads s) = Ret empty_apps_document)
  /\ (fault_at 0 s = None -> fault_at 1 s <> None ->
      fst (download_latest_body json_loads s) = Ret empty_apps_document)
  /\ (forall k data,
        fault_at 0 s = None -> fault_at 1 s = None ->
        is_lex_max k (stored_keys s) ->
        blob_lookup k (blobs s) = Some data ->
        fault_at 2 s <> None \/ (forall d, json_loads data <> Parsed d) ->
        fst (download_latest_body json_loads s) = Ret empty_apps_document)
  /\ empty_apps_document <> default_document.
Proof.
  split; [apply load_never_raises|].
  split; [|split; [|split]].
  - intros F0. destruct (fault_at 0 s) as [m|] eqn:E; [|congruence].
    now apply (load_connect_fault s E).
  - intros F0 F1. destruct (fault_at 1 s) as [m|] eqn:E; [|congruence].
    now apply (load_list_fault s F0 E).
  - intros k data F0 F1 Hmax Hdata Hfail.
    destruct (load_selects s F0 F1 Hmax) as [_ Hres].
    rewrite Hres, Hdata.
    destruct Hfail as [F2|Hbad].
    + destruct (fault_at 2 s); [reflexivity | congruence].
    + destruct (json_loads data) as [d|msg|msg];
        [destruct (Hbad d eq_refl)| |]; destruct (fault_at 2 s); reflexivity.
  - discriminate.
Qed.

(** ** The claims on publishing *)

(** C1: when an edit yields a candidate (a prompt is selected, the
    trimmed texts differ) and the publish succeeds, the handler ends the
    run with the cache emptied and the candidate held by the session.  In
    any later run the held document is the candidate, and the cached load
    goes to the container whatever the age of the former entry; it returns
    the candidate once the reads succeed, the snapshot just written is the
    greatest key and the candidate parses back from its serialization. *)
Theorem publish_commit_no_stale_read (data : Document) (sel : Selection)
    (edited : str) (candidate : Document) (s : State) :
  selected_index sel <> (-1)%Z ->
  strip edited <> strip (initial_content_str sel) ->
  with_content data (selected_index sel) (split_nl edited) = Ret candidate ->
  fst (upload_prompt_repo_to_blob json_dumps candidate s) = Ret true ->
  let s' := snd (upload_changes json_dumps data sel edited s) in
  fst (upload_changes json_dumps data sel edited s) = Raise RerunException
  /\ cache s' = None
  /\ prompt_data s' = Some candidate
  /\ forall s2, later s' s2 ->
       fst (current_document json_loads s2) = Ret candidate
       /\ fst (download_latest_prompt_repo_from_blob json_loads s2)
          = fst (download_latest_body json_loads s2)
       /\ (fault_at 0 s2 = None -> fault_at 1 s2 = None -> fault_at 2 s2 = None ->
           (forall k', In k' (stored_keys s) ->
                       str_leb k' (snapshot_key (utcnow s)) = true) ->
           json_loads (json_dumps 4 candidate) = Parsed candidate ->
           fst (download_latest_prompt_repo_from_blob json_loads s2) = Ret candidate).
Proof.
  intros Hidx Hdiff Hcand Hok s'. subst s'.
  rewrite (upload_changes_publishes data sel edited s Hidx Hdiff Hcand).
  destruct (publish_and_commit_success candidate s Hok) as (Hres & Hb & Hc & Hp).
  repeat split; auto.
  - destruct H as (_ & _ & Hp2). rewrite Hp in Hp2.
    now rewrite (current_document_held s2 Hp2).
  - destruct H as (_ & Hc2 & _). rewrite Hc in Hc2.
    now destruct (cache_miss s2 Hc2).
  - intros F0 F1 F2 Hle Hrt.
    destruct H as (Hb2 & Hc2 & _). rewrite Hc in Hc2. rewrite Hb in Hb2.
    destruct (cache_miss s2 Hc2) as [-> _].
    pose proof (@put_key_is_lex_max s s2 (utcnow s) _ Hb2 Hle) as Hmax.
    destruct (load_selects s2 F0 F1 Hmax) as [_ ->].
    rewrite F2, Hb2, blob_lookup_put, Hrt. reflexivity.
Qed.

(** C4: when the service rejects the connection or the write of a
    publish, the publish reports failure and each handler finishes with
    the held document, the cache and the container as they were. *)
Theorem failed_publish_no_partial_commit (d : Document) (s : State) :
  fault_at 0 s <> None \/ fault_at 1 s <> None ->
  fst (upload_prompt_repo_to_blob json_dumps d s) = Ret false
  /\ (forall data sel edited,
        with_content data (selected_index sel) (split_nl edited) = Ret d ->
        let s' := snd (upload_changes json_dumps data sel edited s) in
        fst (upload_changes json_dumps data sel edited s) = Ret tt
        /\ prompt_data s' = prompt_data s /\ cache s' = cache s
        /\ blobs s' = blobs s)
  /\ (forall text,
        json_loads text = Parsed d ->
        let s' := snd (upload_raw_json json_loads json_dumps text s) in
        fst (upload_raw_json json_loads json_dumps text s) = Ret tt
        /\ prompt_data s' = prompt_data s /\ cache s' = cache s
        /\ blobs s' = blobs s).
Proof.
  intros Hfault. apply upload_fails_iff with (d := d) in Hfault.
  pose proof (publish_and_commit_failure d s Hfault) as Hpub.
  destruct (upload_failure_frame d s Hfault) as (Hb & Hc & Hp).
  split; [assumption|]. split.
  - intros data sel edited Hcand s'. subst s'. unfold upload_changes.
    rewrite Hcand.
    destruct (negb (selected_index sel =? -1)%Z
              && negb (str_eqb (strip edited) (strip (initial_content_str sel)))).
    + unfold bind, lift. rewrite Hpub. simpl. auto.
    + destruct s; simpl. auto.
  - intros text Hparse s'. subst s'.
    unfold upload_raw_json, try_except, bind, loads. rewrite Hparse.
    unfold ret. rewrite Hpub. simpl. auto.
Qed.

(** C5, as the code has it: for every text that [json.loads] does not
    parse, whichever exception it raises, the raw upload handler sends no
    request to the service and leaves the held document, the cache and
    the container as they were; for every text that [json.loads] rejects
    with a [JSONDecodeError], the handler shows the error
    [Invalid JSON format.] and ends normally. *)
Theorem raw_replace_malformed_input (text : str) (s : State) :
  (forall d, json_loads text <> Parsed d) ->
  let s' := snd (upload_raw_json json_loads json_dumps text s) in
  calls s' = calls s
  /\ blobs s' = blobs s
  /\ prompt_data s' = prompt_data s
  /\ cache s' = cache s
  /\ (forall msg,
        json_loads text = DecodeError msg ->
        fst (upload_raw_json json_loads json_dumps text s) = Ret tt
        /\ ui s' = ui s ++ [Error (lit "Invalid JSON format.")]).
Proof.
  intros Hbad s'. subst s'.
  unfold upload_raw_json, try_except, bind, loads.
  destruct (json_loads text) as [d|msg|msg]; [destruct (Hbad d eq_refl)| |];
    clear Hbad; destruct s; simpl;
    (split; [reflexivity|]); (split; [reflexivity|]);
    (split; [reflexivity|]); (split; [reflexivity|]);
    intros msg' Hmsg; [split; reflexivity | discriminate Hmsg].
Qed.

(** C7: for every selection and every new text whose trimmed form equals
    the trimmed form of the original joined content, the handler takes the
    no-change branch: it shows [No changes detected or no prompt selected.],
    sends no request to the service and changes nothing else. *)
Theorem unchanged_edit_publishes_nothing (data : Document) (sel : Selection)
    (edited : str) (s : State) :
  strip edited = strip (initial_content_str sel) ->
  let s' := snd (upload_changes json_dumps data sel edited s) in
  fst (upload_changes json_dumps data sel edited s) = Ret tt
  /\ ui s' = ui s ++ [Info (lit "No changes detected or no prompt selected.")]
  /\ calls s' = calls s
  /\ blobs s' = blobs s
  /\ prompt_data s' = prompt_data s
  /\ cache s' = cache s.
Proof.
  intros Hsame s'. subst s'. unfold upload_changes.
  apply str_eqb_eq in Hsame. rewrite Hsame, andb_false_r.
  destruct s; simpl. repeat split; reflexivity.
Qed.

End Properties.

Transparent lit.

(** ** Lines and text *)

Lemma split_nl_nonempty (t : str) : split_nl t <> [].
Proof.
  destruct t as [|c t]; simpl; [discriminate|].
  destruct (char_eqb c NL); [discriminate|].
  destruct (split_nl t); discriminate.
Qed.

(** Splitting and joining again gives the text back, for every text. *)
Lemma join_split (t : str) : join_nl (split_nl t) = t.
Proof.
  induction t as [|c t IH]; simpl; [reflexivity|].
  destruct (char_eqb c NL) eqn:E.
  - apply N.eqb_eq in E. subst c.
    pose proof (split_nl_nonempty t) as Hne.
    simpl. destruct (split_nl t) as [|l ls]; [contradiction|].
    now rewrite IH.
  - destruct (split_nl t) as [|l ls] eqn:Hs.
    + now destruct (split_nl_nonempty t).
    + simpl in *. destruct ls; simpl in *; now rewrite <- IH.
Qed.

Lemma split_line (x : str) : ~ In NL x -> split_nl x = [x].
Proof.
  induction x as [|c x IH]; simpl; [reflexivity|].
  intros Hnl. destruct (char_eqb c NL) eqn:E.
  - apply N.eqb_eq in E. subst. exfalso. apply Hnl. now left.
  - rewrite IH; [reflexivity|]. intros Hin. apply Hnl. now right.
Qed.

Lemma split_line_break (x rest : str) :
  ~ In NL x -> split_nl (x ++ NL :: rest) = x :: split_nl rest.
Proof.
  induction x as [|c x IH]; simpl; intros Hnl.
  - reflexivity.
  - destruct (char_eqb c NL) eqn:E.
    + apply N.eqb_eq in E. subst. exfalso. apply Hnl. now left.
    + rewrite IH; [reflexivity|]. intros Hin. apply Hnl. now right.
Qed.

Lemma split_join (lines : list str) :
  lines <> [] -> (forall x, In x lines -> ~ In NL x) ->
  split_nl (join_nl lines) = lines.
Proof.
  induction lines as [|x rest IH]; [congruence|].
  intros _ Hnl. destruct rest as [|y rest].
  - simpl. apply split_line. apply Hnl. now left.
  - change (join_nl (x :: y :: rest)) with (x ++ NL :: join_nl (y :: rest)).
    rewrite split_line_break by (apply Hnl; now left).
    f_equal. apply IH; [discriminate|].
    intros z Hz. apply Hnl. now right.
Qed.

(** A line break at the end of the text is one more, empty, line. *)
Lemma split_trailing_break (t : str) :
  split_nl (t ++ [NL]) = split_nl t ++ [[]].
Proof.
  induction t as [|c t IH]; simpl; [reflexivity|].
  destruct (char_eqb c NL); rewrite IH; [reflexivity|].
  destruct (split_nl t) as [|l ls] eqn:Hs; [|reflexivity].
  now destruct (split_nl_nonempty t).
Qed.

Lemma lstrip_spaces (ws t : str) :
  forallb is_space ws = true -> lstrip (ws ++ t) = lstrip t.
Proof.
  induction ws as [|c ws IH]; simpl; [reflexivity|].
  intros H. apply andb_true_iff in H as [Hc Hws]. rewrite Hc. now apply IH.
Qed.

Lemma forallb_rev {A : Type} (f : A -> bool) (l : list A) :
  forallb f (rev l) = forallb f l.
Proof.
  induction l as [|x l IH]; simpl; [reflexivity|].
  rewrite forallb_app, IH. simpl. rewrite andb_true_r. apply andb_comm.
Qed.

Lemma rstrip_spaces (t ws : str) :
  forallb is_space ws = true -> rstrip (t ++ ws) = rstrip t.
Proof.
  intros H. unfold rstrip. rewrite rev_app_distr.
  rewrite lstrip_spaces; [reflexivity|]. now rewrite forallb_rev.
Qed.

Lemma lstrip_before_spaces (t ws : str) :
  forallb is_space ws = true ->
  lstrip (t ++ ws) = lstrip t ++ ws \/ (lstrip (t ++ ws) = [] /\ lstrip t = []).
Proof.
  intros H. induction t as [|c t IH]; simpl.
  - right. split; [|reflexivity].
    rewrite <- (app_nil_r ws). now rewrite lstrip_spaces.
  - destruct (is_space c); [exact IH | now left].
Qed.

(** Whitespace around a text does not survive trimming. *)
Lemma strip_ignores_padding (ws1 t ws2 : str) :
  forallb is_space ws1 = true -> forallb is_space ws2 = true ->
  strip (ws1 ++ t ++ ws2) = strip t.
Proof.
  intros H1 H2. unfold strip. rewrite lstrip_spaces by assumption.
  destruct (lstrip_before_spaces t ws2 H2) as [E|[E1 E2]].
  - rewrite E. now apply rstrip_spaces.
  - now rewrite E1, E2.
Qed.

(** C8, as the code has it: joining a content of at least one line, no
    line of which contains a line break, and splitting the text again
    gives the content back, empty lines included; splitting any text and
    joining the lines gives the text back.  A line break at the end of the
    text is kept in the stored content as a last empty line; it is only
    the change detection, which compares trimmed texts, that ignores it. *)
Theorem content_round_trip (lines : list str) (t : str) :
  (lines <> [] -> (forall x, In x lines -> ~ In NL x) ->
   split_nl (join_nl lines) = lines)
  /\ join_nl (split_nl t) = t
  /\ split_nl (t ++ [NL]) = split_nl t ++ [[]]
  /\ strip (t ++ [NL]) = strip t.
Proof.
  split; [apply split_join|].
  split; [apply join_split|].
  split; [apply split_trailing_break|].
  apply (strip_ignores_padding [] t [NL]); reflexivity.
Qed.

(** ** Selection by name *)

Lemma names_from_length (i : nat) (l : list Prompt) :
  length (names_from i l) = length l.
Proof.
  revert i. induction l as [|p l IH]; intros i; simpl; [reflexivity|].
  now rewrite IH.
Qed.

(** [l.index(x)] is the first position holding [x]. *)
Lemma py_index_first (l : list str) (x : str) (j : nat) :
  py_index l x = Some j ->
  nth_error l j = Some x /\ forall m, m < j -> nth_error l m <> Some x.
Proof.
  revert j. induction l as [|y l IH]; intros j; simpl; [discriminate|].
  destruct (str_eqb y x) eqn:E.
  - intros H. injection H as <-. apply str_eqb_eq in E. subst.
    split; [reflexivity | intros m Hm; lia].
  - destruct (py_index l x) as [i|]; [|discriminate].
    intros H. injection H as <-.
    destruct (IH i eq_refl) as [Hn Hfirst]. split; [exact Hn|].
    intros [|m] Hm; simpl.
    + apply str_eqb_neq in E. congruence.
    + apply Hfirst. lia.
Qed.

(** It is found for every member, at or before any position holding it. *)
Lemma py_index_member (l : list str) (x : str) (i : nat) :
  nth_error l i = Some x -> exists j, py_index l x = Some j /\ j <= i.
Proof.
  revert i. induction l as [|y l IH]; intros [|i]; simpl; try discriminate.
  - intros H. injection H as ->. rewrite str_eqb_refl.
    exists 0. split; [reflexivity | lia].
  - intros H. destruct (str_eqb y x); [exists 0; split; [reflexivity | lia]|].
    destruct (IH i H) as (j & -> & Hle). exists (S j). split; [reflexivity | lia].
Qed.

Lemma py_getitem_nat {A : Type} (l : list A) (j : nat) :
  j < length l -> py_getitem l (Z.of_nat j) = nth_error l j.
Proof.
  intros H. unfold py_getitem.
  destruct (Z.ltb_spec (Z.of_nat j) 0); [lia|].
  destruct (Z.leb_spec 0 (Z.of_nat j)); [|lia].
  destruct (Z.ltb_spec (Z.of_nat j) (Z.of_nat (length l))); [|lia].
  simpl. now rewrite Nat2Z.id.
Qed.

Lemma py_setitem_nat {A : Type} (l : list A) (j : nat) (v : A) :
  j < length l -> py_setitem l (Z.of_nat j) v = Some (set_nth l j v).
Proof.
  intros H. unfold py_setitem.
  destruct (Z.ltb_spec (Z.of_nat j) 0); [lia|].
  destruct (Z.leb_spec 0 (Z.of_nat j)); [|lia].
  destruct (Z.ltb_spec (Z.of_nat j) (Z.of_nat (length l))); [|lia].
  simpl. now rewrite Nat2Z.id.
Qed.

Lemma set_nth_same {A : Type} (l : list A) (j : nat) (v : A) :
  j < length l -> nth_error (set_nth l j v) j = Some v.
Proof.
  revert j. induction l as [|x l IH]; intros [|j]; simpl; try lia.
  - reflexivity.
  - intros H. apply IH. lia.
Qed.

Lemma set_nth_other {A : Type} (l : list A) (j m : nat) (v : A) :
  m <> j -> nth_error (set_nth l j v) m = nth_error l m.
Proof.
  revert j m. induction l as [|x l IH]; intros [|j] [|m]; simpl;
    try reflexivity; try congruence.
  intros H. apply IH. congruence.
Qed.

(** What [select_prompt] computes when the select box holds a non-empty
    name: the first prompt of that name, and its content joined. *)
Lemma select_prompt_named (data : Document) (pl : list Prompt)
    (choice : nat) (name : str) (s : State) :
  prompt_list_of data = Ret pl ->
  nth_error (prompt_names pl) choice = Some name ->
  name <> [] ->
  exists j p,
    py_index (prompt_names pl) name = Some j
    /\ j <= choice
    /\ nth_error pl j = Some p
    /\ select_prompt data choice s
       = (Ret (mkSelection (Some name) (Z.of_nat j)
                 (join_nl match p_content p with Some c => c | None => [] end)),
          s).
Proof.
  intros Hpl Hname Hne.
  destruct (py_index_member _ _ Hname) as (j & Hj & Hle).
  assert (Hlen : j < length pl).
  { destruct (py_index_first _ _ Hj) as [Hn _].
    assert (Hsome : nth_error (prompt_names pl) j <> None) by congruence.
    apply nth_error_Some in Hsome.
    unfold prompt_names in Hsome. now rewrite names_from_length in Hsome. }
  destruct (nth_error pl j) as [p|] eqn:Hp.
  2:{ apply nth_error_None in Hp. lia. }
  exists j, p. repeat split; auto.
  unfold select_prompt, bind, lift. rewrite Hpl.
  destruct (prompt_names pl) as [|n0 names] eqn:Hnames.
  { destruct choice; discriminate. }
  simpl is_empty. cbv iota. unfold ret at 1. rewrite <- Hnames in *.
  unfold selectbox, selected_index_of, initial_content_of.
  rewrite Hname. destruct name as [|c name]; [congruence|]. simpl truthy.
  cbv iota. rewrite Hj. rewrite (py_getitem_nat pl Hlen), Hp.
  destruct (Z.eqb_spec (Z.of_nat j) (-1)); [lia|].
  rewrite Hnames. reflexivity.
Qed.

Lemma with_content_nat (data : Document) (pl : list Prompt) (j : nat)
    (p : Prompt) (lines : list str) :
  prompt_list_of data = Ret pl -> nth_error pl j = Some p ->
  exists data',
    with_content data (Z.of_nat j) lines = Ret data'
    /\ prompt_list_of data'
       = Ret (set_nth pl j (mkPrompt (p_name p) (Some lines))).
Proof.
  intros Hpl Hp.
  assert (Hlen : j < length pl).
  { apply nth_error_Some. congruence. }
  unfold prompt_list_of in Hpl. unfold with_content.
  destruct (APPS data) as [[|app0 apps]|]; try discriminate.
  destruct (a_prompts app0) as [l|] eqn:Hl; injection Hpl as <-.
  - rewrite (py_getitem_nat l Hlen), Hp, (py_setitem_nat l _ Hlen).
    eexists. split; [reflexivity|]. reflexivity.
  - simpl in Hlen. lia.
Qed.

(** Whatever position is picked, the selection raises nothing, and the
    index it yields is -1 or a position of the prompt list. *)
Lemma select_prompt_total (data : Document) (pl : list Prompt)
    (choice : nat) (s : State) :
  prompt_list_of data = Ret pl ->
  exists sel s',
    select_prompt data choice s = (Ret sel, s')
    /\ (selected_index sel = (-1)%Z
        \/ (0 <= selected_index sel < Z.of_nat (length pl))%Z).
Proof.
  intros Hpl.
  destruct (nth_error (prompt_names pl) choice) as [[|c name]|] eqn:Hname.
  - unfold select_prompt, bind, lift. rewrite Hpl.
    unfold selectbox. rewrite Hname. simpl.
    destruct (is_empty (prompt_names pl)); unfold st_warning, show, ret;
      simpl; do 2 eexists; (split; [reflexivity | now left]).
  - destruct (select_prompt_named data choice s Hpl Hname)
      as (j & p & _ & _ & Hp & Hsel); [discriminate|].
    rewrite Hsel. do 2 eexists. split; [reflexivity|]. right. simpl.
    assert (j < length pl) by (apply nth_error_Some; congruence). lia.
  - unfold select_prompt, bind, lift. rewrite Hpl.
    unfold selectbox. rewrite Hname. simpl.
    destruct (is_empty (prompt_names pl)); unfold st_warning, show, ret;
      simpl; do 2 eexists; (split; [reflexivity | now left]).
Qed.

(** C9, as the code has it: the selection goes by name.  For a position
    of the select box whose name is not empty, the index is that of the
    first prompt of app 0 bearing that name, which is the position itself
    when no earlier prompt shares the name, and the text offered is the
    content of the prompt at that index, joined by line breaks.  When app
    0 has no prompts, the warning [No prompts found in the repository.] is
    shown, nothing is selected (index -1) and the text is empty.  In no
    case is anything raised, and the index is never out of range. *)
Theorem select_prompt_by_name (data : Document) (pl : list Prompt)
    (choice : nat) (s : State) :
  prompt_list_of data = Ret pl ->
  (pl = [] ->
   select_prompt data choice s
   = (Ret (mkSelection None (-1) []),
      snd (st_warning (lit "No prompts found in the repository.") s)))
  /\ (forall name,
        nth_error (prompt_names pl) choice = Some name -> name <> [] ->
        exists j p,
          py_index (prompt_names pl) name = Some j
          /\ j <= choice
          /\ ((forall m, m < choice -> nth_error (prompt_names pl) m <> Some name)
              -> j = choice)
          /\ nth_error pl j = Some p
          /\ select_prompt data choice s
             = (Ret (mkSelection (Some name) (Z.of_nat j)
                       (join_nl match p_content p with
                                | Some c => c
                                | None => []
                                end)),
                s))
  /\ (exists sel s',
        select_prompt data choice s = (Ret sel, s')
        /\ (selected_index sel = (-1)%Z
            \/ (0 <= selected_index sel < Z.of_nat (length pl))%Z)).
Proof.
  intros Hpl. split; [|split].
  - intros ->. unfold select_prompt, bind, lift. rewrite Hpl. simpl.
    unfold selectbox. destruct choice; reflexivity.
  - intros name Hname Hne.
    destruct (select_prompt_named data choice s Hpl Hname Hne)
      as (j & p & Hj & Hle & Hp & Hsel).
    exists j, p. repeat split; auto.
    intros Hfirst. destruct (py_index_first _ _ Hj) as [Hn _].
    destruct (Nat.eq_dec j choice) as [E|E]; [exact E|].
    exfalso. apply (Hfirst j); [lia | exact Hn].
  - now apply select_prompt_total.
Qed.

(** C10, as the code has it: when several prompts of app 0 share a
    non-empty name, selecting any of them yields the index of the first
    prompt of that name and that prompt's content, and a changed text is
    published in a document where the content of that first prompt alone
    is replaced; every other prompt, the later duplicates included, is
    left as it was. *)
Theorem duplicate_names_resolve_to_first (json_dumps : N -> Document -> str)
    (data : Document) (pl : list Prompt) (i i' : nat) (name edited : str)
    (s : State) :
  prompt_list_of data = Ret pl ->
  nth_error (prompt_names pl) i = Some name ->
  nth_error (prompt_names pl) i' = Some name ->
  i <> i' ->
  name <> [] ->
  exists j p sel data' pl',
    nth_error (prompt_names pl) j = Some name
    /\ (forall m, m < j -> nth_error (prompt_names pl) m <> Some name)
    /\ j <= i /\ j <= i'
    /\ nth_error pl j = Some p
    /\ sel = mkSelection (Some name) (Z.of_nat j)
               (join_nl match p_content p with Some c => c | None => [] end)
    /\ (forall pick, pick = i \/ pick = i' ->
        select_prompt data pick s = (Ret sel, s))
    /\ with_content data (selected_index sel) (split_nl edited) = Ret data'
    /\ prompt_list_of data' = Ret pl'
    /\ nth_error pl' j = Some (mkPrompt (p_name p) (Some (split_nl edited)))
    /\ (forall m, m <> j -> nth_error pl' m = nth_error pl m)
    /\ (strip edited <> strip (initial_content_str sel) ->
        upload_changes json_dumps data sel edited s
        = publish_and_commit json_dumps data' s).
Proof.
  intros Hpl Hi Hi' Hdiff Hne.
  destruct (select_prompt_named data i s Hpl Hi Hne)
    as (j & p & Hj & Hle & Hp & Hsel).
  destruct (select_prompt_named data i' s Hpl Hi' Hne)
    as (j' & p' & Hj' & Hle' & Hp' & Hsel').
  assert (j' = j) by congruence. subst j'.
  assert (p' = p) by congruence. subst p'.
  destruct (py_index_first _ _ Hj) as [Hn Hfirst].
  destruct (with_content_nat data j (split_nl edited) Hpl Hp)
    as (data' & Hw & Hpl').
  assert (Hlen : j < length pl) by (apply nth_error_Some; congruence).
  exists j, p, (mkSelection (Some name) (Z.of_nat j)
                  (join_nl match p_content p with Some c => c | None => [] end)),
    data', (set_nth pl j (mkPrompt (p_name p) (Some (split_nl edited)))).
  split; [exact Hn|]. split; [exact Hfirst|].
  split; [exact Hle|]. split; [exact Hle'|]. split; [exact Hp|].
  split; [reflexivity|].
  split; [intros pick [->| ->]; assumption|].
  split; [exact Hw|]. split; [exact Hpl'|].
  split; [now apply set_nth_same|].
  split; [intros m Hm; now apply set_nth_other|].
  intros Hchanged. apply upload_changes_publishes; simpl; [lia | exact Hchanged | exact Hw].
Qed.

(** * The claims on concrete runs *)

Lemma load_latest_selects_lex_max_witness :
  exists k data,
    is_lex_max k [key_0900; key_1000]
    /\ blob_lookup k two_snapshots_rev = Some data
    /\ calls (snd (download_latest_body demo_loads
                     (demo_state two_snapshots_rev [] ten_o_clock)))
       = [CallConnect; CallList (lit "prompt_repo_"); CallDownload k]
    /\ fst (download_latest_body demo_loads
              (demo_state two_snapshots_rev [] ten_o_clock))
       = match demo_loads data with
         | Parsed d => Ret d
         | _ => Ret empty_apps_document
         end.
Proof.
  apply (@load_latest_selects_lex_max demo_loads
           (demo_state two_snapshots_rev [] ten_o_clock) [key_0900; key_1000]).
  - reflexivity.
  - reflexivity.
  - vm_compute. apply perm_swap.
  - discriminate.
Defined.

Lemma load_latest_default_without_write_witness :
  fst (download_latest_body demo_loads no_snapshot_state) = Ret default_document
  /\ calls (snd (download_latest_body demo_loads no_snapshot_state))
     = [CallConnect; CallList (lit "prompt_repo_")]
  /\ blobs (snd (download_latest_body demo_loads no_snapshot_state))
     = [(lit "notes.json", lit "{}")]
  /\ fst (download_latest_prompt_repo_from_blob demo_loads no_snapshot_state)
     = Ret default_document.
Proof.
  destruct (@load_latest_default_without_write demo_loads no_snapshot_state)
    as (Hres & Hcalls & Hblobs & Hcached);
    [reflexivity | reflexivity | reflexivity |].
  destruct (Hcached eq_refl) as [Hc _].
  exact (conj Hres (conj Hcalls (conj Hblobs Hc))).
Defined.

Lemma load_latest_failure_degrades_witness :
  fst (download_latest_body demo_loads download_timeout_state)
  = Ret empty_apps_document.
Proof.
  destruct (load_latest_failure_degrades demo_loads download_timeout_state)
    as (_ & _ & _ & Hfetch & _).
  apply (Hfetch key_1000 (demo_dumps 4 doc_ab)).
  - reflexivity.
  - reflexivity.
  - split.
    + right. left. reflexivity.
    + intros k' [<-|[<-|[]]]; vm_compute; reflexivity.
  - vm_compute. reflexivity.
  - left. vm_compute. discriminate.
Defined.

Lemma publish_commit_no_stale_read_witness :
  fst (upload_changes demo_dumps doc_ab sel_greeting text_abc editing_state)
  = Raise RerunException
  /\ cache (snd (upload_changes demo_dumps doc_ab sel_greeting text_abc editing_state))
     = None
  /\ fst (current_document demo_loads
            (snd (upload_changes demo_dumps doc_ab sel_greeting text_abc editing_state)))
     = Ret doc_abc
  /\ fst (download_latest_prompt_repo_from_blob demo_loads
            (snd (upload_changes demo_dumps doc_ab sel_greeting text_abc editing_state)))
     = Ret doc_abc.
Proof.
  destruct (@publish_commit_no_stale_read demo_loads demo_dumps doc_ab
              sel_greeting text_abc doc_abc editing_state)
    as (Hrerun & Hcache & Hheld & Hlater).
  - vm_compute. discriminate.
  - vm_compute. discriminate.
  - vm_compute. reflexivity.
  - vm_compute. reflexivity.
  - destruct (Hlater (snd (upload_changes demo_dumps doc_ab sel_greeting
                              text_abc editing_state)))
      as (Hcur & _ & Hget).
    + unfold later. auto.
    + refine (conj Hrerun (conj Hcache (conj Hcur _))).
      apply Hget; try reflexivity.
      intros k' [<-|[<-|[]]]; vm_compute; reflexivity.
Defined.

Lemma failed_publish_no_partial_commit_witness :
  fst (upload_prompt_repo_to_blob demo_dumps doc_abc write_rejected_state)
  = Ret false
  /\ prompt_data (snd (upload_changes demo_dumps doc_ab sel_greeting text_abc
                         write_rejected_state))
     = Some doc_ab
  /\ cache (snd (upload_changes demo_dumps doc_ab sel_greeting text_abc
                   write_rejected_state))
     = Some (doc_ab, 0%N)
  /\ prompt_data (snd (upload_raw_json demo_loads demo_dumps
                         (demo_dumps 4 doc_abc) write_rejected_state))
     = Some doc_ab
  /\ cache (snd (upload_raw_json demo_loads demo_dumps
                   (demo_dumps 4 doc_abc) write_rejected_state))
     = Some (doc_ab, 0%N).
Proof.
  destruct (@failed_publish_no_partial_commit demo_loads demo_dumps doc_abc
              write_rejected_state)
    as (Hfail & Hedit & Hraw).
  - right. vm_compute. discriminate.
  - destruct (Hedit doc_ab sel_greeting text_abc) as (_ & Hp & Hc & _);
      [vm_compute; reflexivity|].
    destruct (Hraw (demo_dumps 4 doc_abc)) as (_ & Hp' & Hc' & _);
      [vm_compute; reflexivity|].
    exact (conj Hfail (conj Hp (conj Hc (conj Hp' Hc')))).
Defined.

Lemma raw_replace_malformed_input_witness :
  calls (snd (upload_raw_json demo_loads demo_dumps (lit "{oops") editing_state))
  = []
  /\ blobs (snd (upload_raw_json demo_loads demo_dumps (lit "{oops") editing_state))
     = two_snapshots
  /\ prompt_data (snd (upload_raw_json demo_loads demo_dumps (lit "{oops") editing_state))
     = Some doc_ab
  /\ cache (snd (upload_raw_json demo_loads demo_dumps (lit "{oops") editing_state))
     = Some (doc_ab, 0%N)
  /\ fst (upload_raw_json demo_loads demo_dumps (lit "{oops") editing_state) = Ret tt
  /\ ui (snd (upload_raw_json demo_loads demo_dumps (lit "{oops") editing_state))
     = [Error (lit "Invalid JSON format.")].
Proof.
  destruct (@raw_replace_malformed_input demo_loads demo_dumps (lit "{oops")
              editing_state)
    as (Hcalls & Hblobs & Hheld & Hcache & Hsignal).
  - intros d. vm_compute. discriminate.
  - destruct (Hsignal (lit "Expecting value")) as [Hret Hui];
      [vm_compute; reflexivity|].
    exact (conj Hcalls (conj Hblobs (conj Hheld (conj Hcache (conj Hret Hui))))).
Defined.

(** A text nested too deep is not JSON either, yet the handler shows no
    error for it: the [RecursionError] of [json.loads] is not the exception
    the handler catches, and escapes. *)
Lemma raw_replace_malformed_input_counterexample :
  (forall d, demo_loads deep_text <> Parsed d)
  /\ fst (upload_raw_json demo_loads demo_dumps deep_text editing_state)
     = Raise (RecursionError (lit "maximum recursion depth exceeded"))
  /\ ui (snd (upload_raw_json demo_loads demo_dumps deep_text editing_state)) = [].
Proof.
  split; [intros d; vm_compute; discriminate|].
  split; vm_compute; reflexivity.
Qed.

Lemma unchanged_edit_publishes_nothing_witness :
  fst (upload_changes demo_dumps doc_ab sel_greeting text_ab_padded editing_state)
  = Ret tt
  /\ ui (snd (upload_changes demo_dumps doc_ab sel_greeting text_ab_padded editing_state))
     = [Info (lit "No changes detected or no prompt selected.")]
  /\ calls (snd (upload_changes demo_dumps doc_ab sel_greeting text_ab_padded editing_state))
     = []
  /\ blobs (snd (upload_changes demo_dumps doc_ab sel_greeting text_ab_padded editing_state))
     = two_snapshots
  /\ prompt_data (snd (upload_changes demo_dumps doc_ab sel_greeting text_ab_padded editing_state))
     = Some doc_ab
  /\ cache (snd (upload_changes demo_dumps doc_ab sel_greeting text_ab_padded editing_state))
     = Some (doc_ab, 0%N).
Proof.
  apply (@unchanged_edit_publishes_nothing demo_dumps doc_ab sel_greeting
           text_ab_padded editing_state).
  vm_compute. reflexivity.
Defined.

(** The round trip as the specification words it fails: the empty content
    comes back as one empty line, a line that contains a line break comes
    back as two lines, and a line break at the end of the text changes the
    stored content. *)
Lemma content_round_trip_counterexample :
  split_nl (join_nl []) <> []
  /\ split_nl (join_nl [lit "a" ++ NL :: lit "b"]) <> [lit "a" ++ NL :: lit "b"]
  /\ split_nl (lit "a" ++ [NL]) <> split_nl (lit "a").
Proof.
  repeat split; vm_compute; discriminate.
Qed.

Lemma content_round_trip_witness :
  split_nl (join_nl [lit "a"; []; lit "b"]) = [lit "a"; []; lit "b"]
  /\ join_nl (split_nl text_ab_padded) = text_ab_padded
  /\ split_nl (lit "a" ++ [NL]) = [lit "a"; []]
  /\ strip (lit "a" ++ [NL]) = lit "a".
Proof.
  destruct (content_round_trip [lit "a"; []; lit "b"] text_ab_padded)
    as (Hround & Hback & _ & _).
  destruct (content_round_trip [] (lit "a")) as (_ & _ & Htrail & Hstrip).
  split.
  - apply Hround; [discriminate|].
    intros x [<-|[<-|[<-|[]]]]; vm_compute; intuition discriminate.
  - exact (conj Hback (conj Htrail Hstrip)).
Defined.

(** Selecting the second of two prompts named [twin] offers the content
    of the first one, not of the prompt at the selected position. *)
Lemma select_prompt_counterexample :
  ~ (forall (data : Document) (pl : list Prompt) (index : nat) (p : Prompt)
            (s : State),
        prompt_list_of data = Ret pl ->
        nth_error pl index = Some p ->
        exists sel s',
          select_prompt data index s = (Ret sel, s')
          /\ initial_content_str sel
             = join_nl match p_content p with Some c => c | None => [] end).
Proof.
  intros H.
  destruct (H doc_twins
              [demo_prompt "twin" [lit "first"]; demo_prompt "twin" [lit "second"]]
              1 (demo_prompt "twin" [lit "second"])
              (demo_state [] [] ten_o_clock) eq_refl eq_refl)
    as (sel & s' & Hsel & Htext).
  vm_compute in Hsel. injection Hsel as <- _.
  vm_compute in Htext. discriminate Htext.
Qed.

Lemma select_prompt_by_name_witness :
  select_prompt doc_twins 1 editing_state
  = (Ret (mkSelection (Some (lit "twin")) 0 (lit "first")), editing_state)
  /\ select_prompt default_document 0 editing_state
     = (Ret (mkSelection None (-1) []),
        snd (st_warning (lit "No prompts found in the repository.") editing_state)).
Proof.
  destruct (@select_prompt_by_name doc_twins
              [demo_prompt "twin" [lit "first"]; demo_prompt "twin" [lit "second"]]
              1 editing_state eq_refl)
    as (_ & Hnamed & _).
  destruct (@select_prompt_by_name default_document [] 0 editing_state eq_refl)
    as (Hnone & _ & _).
  split; [|exact (Hnone eq_refl)].
  destruct (Hnamed (lit "twin")) as (j & p & Hj & _ & _ & Hp & Hsel);
    [reflexivity | discriminate |].
  vm_compute in Hj. injection Hj as <-.
  vm_compute in Hp. injection Hp as <-.
  exact Hsel.
Defined.

(** With two prompts whose name is the empty string, selecting either
    resolves to no index at all (-1), not to the first index of the name. *)
Lemma duplicate_names_counterexample :
  ~ (forall (data : Document) (pl : list Prompt) (i i' : nat) (name : str)
            (s : State),
        prompt_list_of data = Ret pl ->
        nth_error (prompt_names pl) i = Some name ->
        nth_error (prompt_names pl) i' = Some name ->
        i <> i' ->
        exists sel s' j,
          select_prompt data i s = (Ret sel, s')
          /\ py_index (prompt_names pl) name = Some j
          /\ selected_index sel = Z.of_nat j).
Proof.
  intros H.
  destruct (H doc_nameless
              [demo_prompt "" [lit "first"]; demo_prompt "" [lit "second"]]
              1 0 [] (demo_state [] [] ten_o_clock) eq_refl eq_refl eq_refl)
    as (sel & s' & j & Hsel & Hj & Hidx); [discriminate|].
  vm_compute in Hsel. injection Hsel as <- _.
  simpl in Hidx. lia.
Qed.

Lemma duplicate_names_resolve_to_first_witness :
  select_prompt doc_twins 1 editing_state
  = (Ret (mkSelection (Some (lit "twin")) 0 (lit "first")), editing_state)
  /\ upload_changes demo_dumps doc_twins
       (mkSelection (Some (lit "twin")) 0 (lit "first")) (lit "changed")
       editing_state
     = publish_and_commit demo_dumps doc_twins_edited editing_state.
Proof.
  destruct (@duplicate_names_resolve_to_first demo_dumps doc_twins
              [demo_prompt "twin" [lit "first"]; demo_prompt "twin" [lit "second"]]
              1 0 (lit "twin") (lit "changed") editing_state)
    as (j & p & sel & data' & pl' & Hj & Hfirst & Hle & Hle' & Hp & Hs & Hsel
        & Hw & _ & _ & _ & Hup);
    [reflexivity | reflexivity | reflexivity | discriminate | discriminate |].
  assert (j = 0) by lia. subst j.
  vm_compute in Hp. injection Hp as <-.
  assert (E : data' = doc_twins_edited).
  { pose proof Hw as Hw'. rewrite Hs in Hw'. vm_compute in Hw'.
    injection Hw' as <-. reflexivity. }
  subst sel data'. split.
  - apply Hsel. now left.
  - apply Hup. vm_compute. discriminate.
Defined.

(** * Further properties of the script *)

(** ** Sorting the versions *)

Lemma insert_desc_perm (x : str) (l : list str) :
  Permutation (insert_desc x l) (x :: l).
Proof.
  induction l as [|y l IH]; simpl; [apply Permutation_refl|].
  destruct (str_ltb x y); [|apply Permutation_refl].
  apply perm_trans with (y :: x :: l); [now apply perm_skip | apply perm_swap].
Qed.

Lemma sort_desc_perm (l : list str) : Permutation (sort_desc l) l.
Proof.
  induction l as [|x l IH]; simpl; [apply perm_nil|].
  apply perm_trans with (x :: sort_desc l);
    [apply insert_desc_perm | now apply perm_skip].
Qed.

Lemma insert_desc_descending (x : str) (l : list str) :
  descending l = true -> descending (insert_desc x l) = true.
Proof.
  induction l as [|y l IH]; simpl; [reflexivity|].
  intros Hl. destruct (str_ltb x y) eqn:E.
  - assert (Hrest : descending l = true).
    { destruct l; [reflexivity|]. now apply andb_true_iff in Hl. }
    specialize (IH Hrest). simpl.
    destruct l as [|z l]; simpl in *.
    + now rewrite (str_ltb_leb _ _ E).
    + destruct (str_ltb x z) eqn:F.
      * apply andb_true_iff in Hl as [Hzy _]. now rewrite Hzy.
      * now rewrite (str_ltb_leb _ _ E).
  - change (descending (x :: y :: l) = true). simpl.
    unfold str_leb at 1. rewrite E. simpl. exact Hl.
Qed.

Lemma sort_desc_descending (l : list str) : descending (sort_desc l) = true.
Proof.
  induction l as [|x l IH]; simpl; [reflexivity|].
  now apply insert_desc_descending.
Qed.

(** The head of a descending list is above every member. *)
Lemma descending_head (k : str) (l : list str) :
  descending (k :: l) = true -> forall x, In x (k :: l) -> str_leb x k = true.
Proof.
  revert k. induction l as [|y l IH]; intros k Hd x [<-|Hin].
  - apply str_leb_refl.
  - contradiction.
  - apply str_leb_refl.
  - simpl in Hd. apply andb_true_iff in Hd as [Hyk Hrest].
    apply (str_leb_trans x y k); [|exact Hyk].
    now apply IH.
Qed.

Lemma descending_nodup_strict (l : list str) :
  descending l = true -> NoDup l -> strictly_descending l = true.
Proof.
  induction l as [|x l IH]; [reflexivity|].
  intros Hd Hnd. inversion Hnd as [|? ? Hnotin Hnd']; subst.
  destruct l as [|y l]; [reflexivity|].
  simpl in Hd. apply andb_true_iff in Hd as [Hyx Hrest].
  change (str_ltb y x && strictly_descending (y :: l) = true).
  rewrite (IH Hrest Hnd'), andb_true_r.
  destruct (str_ltb y x) eqn:E; [reflexivity|].
  exfalso. apply Hnotin. left.
  unfold str_leb in Hyx. apply negb_true_iff in Hyx.
  now apply str_ltb_antisym.
Qed.

Lemma blob_put_listed (k v x : str) (bs : list (str * str)) :
  x = k \/ In x (List.map fst bs) -> In x (List.map fst (blob_put k v bs)).
Proof.
  induction bs as [|[n d] bs IH]; simpl.
  - intros [->|[]]. now left.
  - destruct (str_eqb n k) eqn:E; simpl.
    + apply str_eqb_eq in E. subst n. intros [->|[->|H]]; auto.
    + intros [->|[->|H]]; auto.
Qed.

(** After a write under a key that no stored key exceeds, that key is
    the greatest stored key. *)
Lemma written_key_is_lex_max (bs bs' : list (str * str)) (t : datetime) (v : str) :
  bs' = blob_put (snapshot_key t) v bs ->
  (forall k', In k' (filter (startswith (lit "prompt_repo_")) (List.map fst bs)) ->
              str_leb k' (snapshot_key t) = true) ->
  is_lex_max (snapshot_key t)
    (filter (startswith (lit "prompt_repo_")) (List.map fst bs')).
Proof.
  intros -> Hle. split.
  - apply filter_In. split.
    + apply blob_put_listed. now left.
    + unfold snapshot_key. apply startswith_app.
  - intros k' Hin. apply filter_In in Hin as [Hin Hp].
    destruct (str_eqb k' (snapshot_key t)) eqn:E.
    + apply str_eqb_eq in E. subst. apply str_leb_refl.
    + apply Hle. apply filter_In. split; [|exact Hp].
      apply str_eqb_neq in E. clear Hle Hp. revert Hin.
      induction bs as [|[n d] bs IH]; simpl.
      * intros [H|[]]. congruence.
      * destruct (str_eqb n (snapshot_key t)) eqn:F; simpl.
        -- apply str_eqb_eq in F. subst n. intros [H|H]; [congruence | now right].
        -- intros [H|H]; [now left | right; now apply IH].
Qed.

Section MoreProperties.

Variable json_loads : str -> parsed.
Variable json_dumps : N -> Document -> str.

Opaque lit.

Ltac unfold_pages :=
  unfold fetch_previous_blobs, load_blob_content_for_preview,
    download_latest_prompt_repo_from_blob, download_latest_body,
    upload_prompt_repo_to_blob, publish_and_commit, upload_changes,
    upload_raw_json, current_document, loads, cache_data, cache_data_clear,
    get_container_client, list_blobs, download_blob, upload_blob, request,
    st_warning, st_info, st_error, st_success, st_rerun, show,
    set_prompt_data, gets, try_except, bind, ret, raise, stored_keys,
    fault_at in *.

(** ** Listing the versions *)

Lemma fetch_previous_blobs_run (s : State) :
  fault_at 0 s = None -> fault_at 1 s = None ->
  fst (fetch_previous_blobs s) = Ret (sort_desc (stored_keys s))
  /\ calls (snd (fetch_previous_blobs s))
     = calls s ++ [CallConnect; CallList (lit "prompt_repo_")]
  /\ blobs (snd (fetch_previous_blobs s)) = blobs s
  /\ ui (snd (fetch_previous_blobs s)) = ui s.
Proof.
  destruct s as [bs fs cs t tm ca pd u]. unfold_pages. simpl.
  intros F0 F1.
  destruct fs as [|[m0|] fs]; simpl in *; try discriminate;
    try (destruct fs as [|[m1|] fs]; simpl in *; try discriminate);
    rewrite <- app_assoc; auto.
Qed.

(** X1: with the service answering, the versions listed are exactly the
    stored keys of the reserved prefix, newest first: a permutation of
    them in descending order, strictly descending when no key is listed
    twice.  The listing takes a connect and a list request and changes
    neither the container nor the page. *)
Theorem fetch_previous_blobs_newest_first (s : State) :
  fault_at 0 s = None -> fault_at 1 s = None ->
  exists versions,
    fst (fetch_previous_blobs s) = Ret versions
    /\ Permutation versions (stored_keys s)
    /\ descending versions = true
    /\ (NoDup (stored_keys s) -> strictly_descending versions = true)
    /\ calls (snd (fetch_previous_blobs s))
       = calls s ++ [CallConnect; CallList (lit "prompt_repo_")]
    /\ blobs (snd (fetch_previous_blobs s)) = blobs s
    /\ ui (snd (fetch_previous_blobs s)) = ui s.
Proof.
  intros F0 F1.
  destruct (fetch_previous_blobs_run s F0 F1) as (Hres & Hcalls & Hblobs & Hui).
  exists (sort_desc (stored_keys s)).
  split; [exact Hres|]. split; [apply sort_desc_perm|].
  split; [apply sort_desc_descending|].
  split; [|auto].
  intros Hnd. apply descending_nodup_strict; [apply sort_desc_descending|].
  apply (Permutation_NoDup (Permutation_sym (sort_desc_perm _)) Hnd).
Qed.

(** X2: the listing never raises and never writes; when the connection
    or the list request fails it returns the empty list and shows the
    error [Failed to fetch previous blobs: ...] with the text of the
    exception. *)
Theorem fetch_previous_blobs_failure (s : State) :
  (exists versions, fst (fetch_previous_blobs s) = Ret versions)
  /\ blobs (snd (fetch_previous_blobs s)) = blobs s
  /\ uploads (calls (snd (fetch_previous_blobs s))) = uploads (calls s)
  /\ (forall msg,
        fault_at 0 s = Some msg \/ (fault_at 0 s = None /\ fault_at 1 s = Some msg) ->
        fst (fetch_previous_blobs s) = Ret []
        /\ ui (snd (fetch_previous_blobs s))
           = ui s ++ [Error (lit "Failed to fetch previous blobs: " ++ msg)]).
Proof.
  destruct s as [bs fs cs t tm ca pd u]. unfold_pages. unfold uploads. simpl.
  destruct fs as [|[m0|] fs]; simpl;
    try (destruct fs as [|[m1|] fs]; simpl);
    repeat rewrite filter_app; simpl; repeat rewrite app_nil_r;
    (split; [eauto|]); (split; [reflexivity|]); (split; [reflexivity|]);
    intros msg [H|[H1 H2]]; try discriminate;
    try (injection H as <-); try (injection H2 as <-); auto.
Qed.

(** X3: the version listed first is the snapshot the loader loads: with
    the service answering and at least one snapshot stored, the head of
    the listing is the key the loader downloads. *)
Theorem first_listed_is_loaded (s : State) :
  fault_at 0 s = None -> fault_at 1 s = None ->
  stored_keys s <> [] ->
  exists k rest,
    fst (fetch_previous_blobs s) = Ret (k :: rest)
    /\ calls (snd (download_latest_body json_loads s))
       = calls s ++ [CallConnect; CallList (lit "prompt_repo_"); CallDownload k].
Proof.
  intros F0 F1 Hne.
  destruct (fetch_previous_blobs_run s F0 F1) as (Hres & _).
  pose proof (sort_desc_perm (stored_keys s)) as HP.
  destruct (sort_desc (stored_keys s)) as [|k rest] eqn:Hs.
  - apply Permutation_nil in HP. congruence.
  - exists k, rest. split; [exact Hres|].
    assert (Hmax : is_lex_max k (stored_keys s)).
    { apply (is_lex_max_perm HP). split; [now left|].
      apply descending_head. rewrite <- Hs. apply sort_desc_descending. }
    now destruct (load_selects json_loads s F0 F1 Hmax).
Qed.

(** ** Previewing a version *)

(** X4: the preview never raises, never writes and touches neither the
    session's document nor the cache.  It returns the parsed document
    exactly when the connection and the download succeed, the blob exists
    and its text parses; in every other case it returns [None]. *)
Theorem preview_result (blob_name : str) (s : State) :
  fst (load_blob_content_for_preview json_loads blob_name s)
  = Ret match fault_at 0 s, fault_at 1 s, blob_lookup blob_name (blobs s) with
        | None, None, Some data =>
            match json_loads data with
            | Parsed d => Some d
            | _ => None
            end
        | _, _, _ => None
        end
  /\ blobs (snd (load_blob_content_for_preview json_loads blob_name s)) = blobs s
  /\ uploads (calls (snd (load_blob_content_for_preview json_loads blob_name s)))
     = uploads (calls s)
  /\ prompt_data (snd (load_blob_content_for_preview json_loads blob_name s))
     = prompt_data s
  /\ cache (snd (load_blob_content_for_preview json_loads blob_name s)) = cache s.
Proof.
  destruct s as [bs fs cs t tm ca pd u]. unfold_pages. unfold uploads. simpl.
  destruct fs as [|[m0|] fs]; simpl;
    try (destruct fs as [|[m1|] fs]; simpl);
    try (destruct (blob_lookup blob_name bs) as [data|]; simpl);
    try (destruct (json_loads data); simpl);
    repeat rewrite filter_app; simpl; repeat rewrite app_nil_r;
    repeat split; reflexivity.
Qed.

(** ** Publishing keeps what is stored *)

Lemma blob_lookup_put_other (k name v : str) (bs : list (str * str)) :
  k <> name -> blob_lookup k (blob_put name v bs) = blob_lookup k bs.
Proof.
  intros Hne. induction bs as [|[n d] bs IH]; simpl.
  - apply str_eqb_neq in Hne.
    destruct (str_eqb name k) eqn:E; [|reflexivity].
    apply str_eqb_eq in E. subst. now rewrite str_eqb_refl in Hne.
  - destruct (str_eqb n name) eqn:E; simpl.
    + apply str_eqb_eq in E. subst n.
      destruct (str_eqb name k) eqn:F; [|reflexivity].
      apply str_eqb_eq in F. congruence.
    + now rewrite IH.
Qed.

Lemma blob_put_existing (name v : str) (bs : list (str * str)) :
  In name (List.map fst bs) ->
  List.map fst (blob_put name v bs) = List.map fst bs.
Proof.
  induction bs as [|[n d] bs IH]; simpl; [contradiction|].
  intros Hin. destruct (str_eqb n name) eqn:E; simpl; [reflexivity|].
  f_equal. apply IH. destruct Hin as [->|Hin]; [|exact Hin].
  now rewrite str_eqb_refl in E.
Qed.

(** Whatever its result, a publish leaves the container as it was or
    with the one blob of the current second written. *)
Lemma upload_container (d : Document) (s : State) :
  blobs (snd (upload_prompt_repo_to_blob json_dumps d s)) = blobs s
  \/ blobs (snd (upload_prompt_repo_to_blob json_dumps d s))
     = blob_put (snapshot_key (utcnow s)) (json_dumps 4 d) (blobs s).
Proof.
  destruct s as [bs fs cs t tm ca pd u]. unfold_pages. simpl.
  destruct fs as [|[m0|] fs]; simpl;
    try (destruct fs as [|[m1|] fs]; simpl); auto.
Qed.

(** X5: a publish deletes nothing and rewrites nothing but the blob of
    its own second: whatever its result, every other key keeps its data,
    and every key stored before is still stored after. *)
Theorem publish_keeps_old_snapshots (d : Document) (s : State) (k : str) :
  (k <> snapshot_key (utcnow s) ->
   blob_lookup k (blobs (snd (upload_prompt_repo_to_blob json_dumps d s)))
   = blob_lookup k (blobs s))
  /\ (In k (stored_keys s) ->
      In k (stored_keys (snd (upload_prompt_repo_to_blob json_dumps d s)))).
Proof.
  destruct (upload_container d s) as [E|E]; unfold stored_keys; rewrite E.
  - split; auto.
  - split.
    + intros Hne. now apply blob_lookup_put_other.
    + intros Hin. apply filter_In in Hin as [Hin Hp]. apply filter_In.
      split; [|exact Hp]. apply blob_put_listed. right. exact Hin.
Qed.

(** X6: what was published can be previewed: after a successful publish
    of [d], with the service answering, the preview of the key of that
    second returns [d], provided [d] parses back from its serialization;
    the preview of any other key returns what it returned before. *)
Theorem publish_then_preview (d : Document) (s s2 : State) :
  fst (upload_prompt_repo_to_blob json_dumps d s) = Ret true ->
  blobs s2 = blobs (snd (upload_prompt_repo_to_blob json_dumps d s)) ->
  fault_at 0 s2 = None -> fault_at 1 s2 = None ->
  (json_loads (json_dumps 4 d) = Parsed d ->
   fst (load_blob_content_for_preview json_loads (snapshot_key (utcnow s)) s2)
   = Ret (Some d))
  /\ (forall k s0,
        k <> snapshot_key (utcnow s) ->
        blobs s0 = blobs s -> fault_at 0 s0 = None -> fault_at 1 s0 = None ->
        fst (load_blob_content_for_preview json_loads k s2)
        = fst (load_blob_content_for_preview json_loads k s0)).
Proof.
  intros Hok Hb F0 F1.
  destruct (upload_success_frame json_dumps d s Hok) as (Hput & _ & _).
  rewrite Hput in Hb. split.
  - intros Hrt.
    destruct (preview_result (snapshot_key (utcnow s)) s2) as [-> _].
    now rewrite F0, F1, Hb, blob_lookup_put, Hrt.
  - intros k s0 Hne Hb0 G0 G1.
    destruct (preview_result k s2) as [-> _].
    destruct (preview_result k s0) as [-> _].
    rewrite F0, F1, G0, G1, Hb, Hb0.
    now rewrite blob_lookup_put_other.
Qed.

(** X7: two publishes within the same second collide on the key: after
    both succeeded the key holds the second document, and the container
    has no more blobs than after the first (last write wins). *)
Theorem same_second_publish_overwrites (d1 d2 : Document) (s s1 : State) :
  fst (upload_prompt_repo_to_blob json_dumps d1 s) = Ret true ->
  blobs s1 = blobs (snd (upload_prompt_repo_to_blob json_dumps d1 s)) ->
  utcnow s1 = utcnow s ->
  fst (upload_prompt_repo_to_blob json_dumps d2 s1) = Ret true ->
  blob_lookup (snapshot_key (utcnow s))
    (blobs (snd (upload_prompt_repo_to_blob json_dumps d2 s1)))
  = Some (json_dumps 4 d2)
  /\ List.map fst (blobs (snd (upload_prompt_repo_to_blob json_dumps d2 s1)))
     = List.map fst (blobs s1).
Proof.
  intros Hok1 Hb Ht Hok2.
  destruct (upload_success_frame json_dumps d1 s Hok1) as (Hput1 & _ & _).
  destruct (upload_success_frame json_dumps d2 s1 Hok2) as (Hput2 & _ & _).
  rewrite Hput2, Ht. split; [apply blob_lookup_put|].
  apply blob_put_existing. rewrite Hb, Hput1.
  apply blob_put_listed. now left.
Qed.

End MoreProperties.

Transparent lit.

(** ** Keys and time *)

Lemma str_ltb_app (a b x y : str) :
  length a = length b ->
  str_ltb (a ++ x) (b ++ y)
  = if str_ltb a b then true else if str_ltb b a then false else str_ltb x y.
Proof.
  revert b. induction a as [|c a IH]; intros [|e b] Hlen; simpl in *;
    try discriminate.
  - now destruct x, y.
  - destruct (N.ltb c e); [reflexivity|].
    destruct (N.ltb e c); [reflexivity|].
    apply IH. congruence.
Qed.

Lemma str_ltb_same_prefix (p x y : str) :
  str_ltb (p ++ x) (p ++ y) = str_ltb x y.
Proof.
  rewrite str_ltb_app by reflexivity. now rewrite str_ltb_irrefl.
Qed.

Section FixedWidth.

(** A field printed in a fixed number of digits: the texts of the numbers
    up to [bound] all have [width] characters and each is below the text
    of its successor. *)
Variable print : N -> str.
Variable width bound : nat.
Hypothesis print_width :
  forallb (fun n => Nat.eqb (length (print (N.of_nat n))) width)
          (seq 0 (S bound)) = true.
Hypothesis print_step :
  forallb (fun n => str_ltb (print (N.of_nat n)) (print (N.of_nat (S n))))
          (seq 0 bound) = true.

Lemma fixed_length (a : N) :
  (a <= N.of_nat bound)%N -> length (print a) = width.
Proof.
  intros Ha. rewrite forallb_forall in print_width.
  rewrite <- (N2Nat.id a). apply Nat.eqb_eq. apply print_width.
  apply in_seq. lia.
Qed.

Lemma fixed_step_nat (n m : nat) :
  n < m -> m <= bound ->
  str_ltb (print (N.of_nat n)) (print (N.of_nat m)) = true.
Proof.
  rewrite forallb_forall in print_step.
  induction m as [|m IH]; [lia|].
  intros Hlt Hle.
  assert (Hm : str_ltb (print (N.of_nat m)) (print (N.of_nat (S m))) = true).
  { apply print_step. apply in_seq. lia. }
  destruct (Nat.eq_dec n m) as [->|Hne]; [exact Hm|].
  apply (str_ltb_trans _ (print (N.of_nat m))); [|exact Hm].
  apply IH; lia.
Qed.

(** The order of the texts is the order of the numbers. *)
Lemma fixed_order (a b : N) :
  (a <= N.of_nat bound)%N -> (b <= N.of_nat bound)%N ->
  str_ltb (print a) (print b) = (a <? b)%N.
Proof.
  intros Ha Hb. rewrite <- (N2Nat.id a), <- (N2Nat.id b).
  destruct (N.ltb_spec (N.of_nat (N.to_nat a)) (N.of_nat (N.to_nat b))) as [H|H].
  - apply fixed_step_nat; lia.
  - destruct (N.eq_dec a b) as [->|Hne]; [apply str_ltb_irrefl|].
    apply str_ltb_asym. apply fixed_step_nat; lia.
Qed.

Lemma fixed_field (a b : N) (x y : str) :
  (a <= N.of_nat bound)%N -> (b <= N.of_nat bound)%N ->
  str_ltb (print a ++ x) (print b ++ y)
  = if (a <? b)%N then true else if (b <? a)%N then false else str_ltb x y.
Proof.
  intros Ha Hb. rewrite str_ltb_app.
  - now rewrite !fixed_order.
  - now rewrite !fixed_length.
Qed.

End FixedWidth.

Lemma two_digits_field (a b : N) (x y : str) :
  (a <= 99)%N -> (b <= 99)%N ->
  str_ltb (zpad 2 (dec a) ++ x) (zpad 2 (dec b) ++ y)
  = if (a <? b)%N then true else if (b <? a)%N then false else str_ltb x y.
Proof.
  intros Ha Hb.
  apply (@fixed_field (fun n => zpad 2 (dec n)) 2 99);
    try (vm_compute; reflexivity); assumption.
Qed.

Lemma four_digits_field (a b : N) (x y : str) :
  (a <= 9999)%N -> (b <= 9999)%N ->
  str_ltb (zpad 4 (dec a) ++ x) (zpad 4 (dec b) ++ y)
  = if (a <? b)%N then true else if (b <? a)%N then false else str_ltb x y.
Proof.
  intros Ha Hb.
  apply (@fixed_field (fun n => zpad 4 (dec n)) 4 (N.to_nat 9999));
    try (vm_compute; reflexivity); rewrite N2Nat.id; assumption.
Qed.

(** X8: snapshot keys sort like the times they were written at: for two
    readings of a wall clock, the key of the one is below the key of the
    other exactly when the one is the earlier second. *)
Theorem snapshot_keys_sort_by_time (t1 t2 : datetime) :
  clock_reading t1 = true -> clock_reading t2 = true ->
  str_ltb (snapshot_key t1) (snapshot_key t2) = datetime_ltb t1 t2.
Proof.
  unfold clock_reading. intros H1 H2.
  repeat (apply andb_true_iff in H1 as [H1 ?]).
  repeat (apply andb_true_iff in H2 as [H2 ?]).
  repeat match goal with
         | H : (_ <=? _)%N = true |- _ => apply N.leb_le in H
         end.
  unfold snapshot_key, strftime, datetime_ltb.
  rewrite str_ltb_same_prefix.
  repeat rewrite <- app_assoc.
  rewrite four_digits_field by assumption.
  rewrite !two_digits_field by lia.
  rewrite str_ltb_same_prefix.
  rewrite !two_digits_field by lia.
  rewrite str_ltb_irrefl.
  reflexivity.
Qed.

(** ** Names of prompts *)

Lemma names_from_nth (k i : nat) (pl : list Prompt) (p : Prompt) :
  nth_error pl i = Some p ->
  nth_error (names_from k pl) i
  = Some match p_name p with
         | Some n => n
         | None => lit "Unnamed Prompt " ++ dec (N.of_nat (k + i))
         end.
Proof.
  revert k i. induction pl as [|q pl IH]; intros k [|i]; simpl; try discriminate.
  - intros H. injection H as ->. now rewrite Nat.add_0_r.
  - intros H. rewrite (IH (S k) i H). now rewrite Nat.add_succ_r.
Qed.

Lemma uint_str_inj (u v : Decimal.uint) : uint_str u = uint_str v -> u = v.
Proof.
  revert v. induction u; intros [] H; simpl in H; try discriminate;
    try reflexivity; injection H as H; f_equal; now apply IHu.
Qed.

Lemma dec_inj (a b : N) : dec a = dec b -> a = b.
Proof.
  unfold dec. intros H. apply uint_str_inj in H.
  rewrite <- (DecimalN.Unsigned.of_to a), <- (DecimalN.Unsigned.of_to b).
  now rewrite H.
Qed.

(** X9: the list of names has one name per prompt, at the prompt's
    position: the prompt's own name, or [Unnamed Prompt i] for a prompt
    without one at position [i].  The generated names are not empty and
    differ from position to position. *)
Theorem prompt_names_by_position (pl : list Prompt) :
  length (prompt_names pl) = length pl
  /\ (forall i p,
        nth_error pl i = Some p ->
        nth_error (prompt_names pl) i
        = Some match p_name p with
               | Some n => n
               | None => lit "Unnamed Prompt " ++ dec (N.of_nat i)
               end)
  /\ (forall i j p q,
        nth_error pl i = Some p -> nth_error pl j = Some q ->
        p_name p = None -> p_name q = None -> i <> j ->
        nth_error (prompt_names pl) i <> nth_error (prompt_names pl) j)
  /\ (forall i p,
        nth_error pl i = Some p -> p_name p = None ->
        nth_error (prompt_names pl) i <> Some []).
Proof.
  unfold prompt_names. split; [apply names_from_length|].
  split; [intros i p Hp; apply (names_from_nth 0 i pl Hp)|].
  split.
  - intros i j p q Hp Hq Np Nq Hij.
    rewrite (names_from_nth 0 i pl Hp), (names_from_nth 0 j pl Hq), Np, Nq.
    intros H. injection H as H. apply dec_inj in H. lia.
  - intros i p Hp Np. rewrite (names_from_nth 0 i pl Hp), Np.
    intros H. injection H as H. discriminate H.
Qed.

(** ** Editing a prompt *)

Lemma names_from_set_nth (k j : nat) (pl : list Prompt) (p p' : Prompt) :
  nth_error pl j = Some p -> p_name p' = p_name p ->
  names_from k (set_nth pl j p') = names_from k pl.
Proof.
  revert k j. induction pl as [|q pl IH]; intros k [|j]; simpl; try discriminate.
  - intros H Hn. injection H as ->. now rewrite Hn.
  - intros H Hn. f_equal. now apply IH.
Qed.

Lemma py_getitem_position {A : Type} (l : list A) (i : Z) (x : A) :
  py_getitem l i = Some x ->
  exists j, j < length l /\ nth_error l j = Some x
            /\ forall v, py_setitem l i v = Some (set_nth l j v).
Proof.
  unfold py_getitem, py_setitem.
  set (n := Z.of_nat (length l)).
  set (k := if (i <? 0)%Z then (i + n)%Z else i).
  destruct ((0 <=? k)%Z && (k <? n)%Z) eqn:E; [|discriminate].
  apply andb_true_iff in E as [E1 E2].
  apply Z.leb_le in E1. apply Z.ltb_lt in E2.
  intros H. exists (Z.to_nat k). split; [subst n; lia|]. auto.
Qed.

(** X10: an edit changes the content of one prompt and nothing else: the
    other apps, the name of app 0, the number of prompts and their names
    stay, one prompt holds the new lines and every other prompt is as it
    was. *)
Theorem edit_changes_one_content (data data' : Document) (i : Z)
    (lines : list str) :
  with_content data i lines = Ret data' ->
  exists app0 app0' apps pl pl' j,
    APPS data = Some (app0 :: apps)
    /\ APPS data' = Some (app0' :: apps)
    /\ a_name app0' = a_name app0
    /\ a_prompts app0 = Some pl
    /\ a_prompts app0' = Some pl'
    /\ length pl' = length pl
    /\ prompt_names pl' = prompt_names pl
    /\ (exists p, nth_error pl j = Some p
                  /\ nth_error pl' j = Some (mkPrompt (p_name p) (Some lines)))
    /\ (forall m, m <> j -> nth_error pl' m = nth_error pl m).
Proof.
  unfold with_content.
  destruct (APPS data) as [[|app0 apps]|] eqn:Happs; try discriminate.
  destruct (a_prompts app0) as [pl|] eqn:Hpl; try discriminate.
  destruct (py_getitem pl i) as [p|] eqn:Hget; try discriminate.
  destruct (py_getitem_position pl i Hget) as (j & Hlen & Hp & Hset).
  rewrite Hset. intros H. injection H as <-.
  exists app0, (mkApp (a_name app0) (Some (set_nth pl j (mkPrompt (p_name p) (Some lines))))),
    apps, pl, (set_nth pl j (mkPrompt (p_name p) (Some lines))), j.
  split; [reflexivity|]. split; [reflexivity|]. split; [reflexivity|].
  split; [assumption|]. split; [reflexivity|].
  split.
  { clear Hget Hset Hpl. revert j Hlen Hp.
    induction pl as [|q pl IH]; intros [|j] Hlen Hp; simpl in *;
      try discriminate; try reflexivity.
    f_equal. apply IH; [lia | exact Hp]. }
  split; [unfold prompt_names; now apply names_from_set_nth with (p := p)|].
  split.
  - exists p. split; [exact Hp | now apply set_nth_same].
  - intros m Hm. now apply set_nth_other.
Qed.

(** X11: what was saved is what is shown next: after the content of a
    prompt, picked at a position whose name is not empty and not borne by
    an earlier prompt, was replaced by the lines of a text, selecting the
    same position in the edited document offers that very text. *)
Theorem edit_then_select_round_trip (data : Document) (pl : list Prompt)
    (i : nat) (name text : str) :
  prompt_list_of data = Ret pl ->
  nth_error (prompt_names pl) i = Some name ->
  name <> [] ->
  (forall m, m < i -> nth_error (prompt_names pl) m <> Some name) ->
  exists data',
    with_content data (Z.of_nat i) (split_nl text) = Ret data'
    /\ forall s,
         select_prompt data' i s
         = (Ret (mkSelection (Some name) (Z.of_nat i) text), s).
Proof.
  intros Hpl Hname Hne Hfirst.
  assert (Hlen : i < length pl).
  { rewrite <- (names_from_length 0 pl). apply nth_error_Some.
    unfold prompt_names in Hname. congruence. }
  destruct (nth_error pl i) as [p|] eqn:Hp.
  2:{ apply nth_error_None in Hp. lia. }
  destruct (with_content_nat data i (split_nl text) Hpl Hp) as (data' & Hw & Hpl').
  exists data'. split; [exact Hw|]. intros s.
  set (pl' := set_nth pl i (mkPrompt (p_name p) (Some (split_nl text)))) in *.
  assert (Hnames : prompt_names pl' = prompt_names pl).
  { unfold prompt_names, pl'. now apply names_from_set_nth with (p := p). }
  assert (Hname' : nth_error (prompt_names pl') i = Some name) by congruence.
  destruct (select_prompt_named data' i s Hpl' Hname' Hne)
    as (j & q & Hj & Hle & Hq & Hsel).
  assert (j = i).
  { destruct (py_index_first _ _ Hj) as [Hn _]. rewrite Hnames in Hn.
    destruct (Nat.eq_dec j i) as [E|E]; [exact E|].
    exfalso. apply (Hfirst j); [lia | exact Hn]. }
  subst j. unfold pl' in Hq. rewrite (set_nth_same pl _ Hlen) in Hq.
  injection Hq as <-. rewrite Hsel. simpl. now rewrite join_split.
Qed.

(** ** Composing the parts of the script *)















Section PageProperties.

Variable json_loads : str -> parsed.
Variable json_dumps : N -> Document -> str.

Opaque lit.

Ltac unfold_all :=
  unfold fetch_previous_blobs, load_blob_content_for_preview,
    download_latest_prompt_repo_from_blob, download_latest_body,
    upload_prompt_repo_to_blob, publish_and_commit, upload_changes,
    upload_raw_json, current_document, loads, cache_data, cache_data_clear,
    get_container_client, list_blobs, download_blob, upload_blob, request,
    st_warning, st_info, st_error, st_success, st_rerun, show,
    set_prompt_data, gets, try_except, bind, ret, raise, stored_keys,
    fault_at, uploads in *.

(** A load sends no write request and leaves clock, cache and session
    as they are. *)
Lemma load_frame (s : State) :
  uploads (calls (snd (download_latest_body json_loads s))) = uploads (calls s)
  /\ timer (snd (download_latest_body json_loads s)) = timer s
  /\ cache (snd (download_latest_body json_loads s)) = cache s
  /\ prompt_data (snd (download_latest_body json_loads s)) = prompt_data s.
Proof.
  destruct s as [bs fs cs t tm ca pd u]. unfold_all. simpl.
  destruct fs as [|[m0|] fs]; simpl;
    try (destruct fs as [|[m1|] fs]; simpl);
    try (destruct (filter _ (List.map fst bs)) as [|x keys]; simpl);
    try (destruct fs as [|[m2|] fs]; simpl);
    try (destruct (blob_lookup _ bs); simpl);
    try (destruct (json_loads _); simpl);
    repeat rewrite filter_app; simpl; repeat rewrite app_nil_r;
    repeat split; reflexivity.
Qed.














(** ** A run of the script *)





(** X14: a session whose document has no app is stuck.  Every run shows
    the error [Could not load a valid prompt structure ...] and does
    nothing else, whatever the user presses: no request is sent and the
    document is not loaded again.  A new session whose load fails at the
    connection ends up in that state, holding the empty-apps document. *)
Theorem session_without_apps_is_stuck (inp : Input)
    (preview_data : option (option Document)) (s : State) :
  (forall data,
      prompt_data s = Some data -> has_apps data = false ->
      script json_loads json_dumps inp preview_data s
      = (Ret preview_data,
         snd (st_error (lit "Could not load a valid prompt structure from Azure. Please check the connection string and container name.") s)))
  /\ (prompt_data s = None -> cache s = None -> fault_at 0 s <> None ->
      fst (script json_loads json_dumps inp preview_data s) = Ret preview_data
      /\ prompt_data (snd (script json_loads json_dumps inp preview_data s))
         = Some empty_apps_document
      /\ blobs (snd (script json_loads json_dumps inp preview_data s)) = blobs s).
Proof.
  split.
  - intros data Hheld Hvalid.
    unfold script, edit_column, bind.
    rewrite (current_document_held json_loads s Hheld). rewrite Hvalid. simpl.
    reflexivity.
  - intros Hheld Hcache Hfault.
    destruct (fault_at 0 s) as [msg|] eqn:F0; [|congruence].
    pose proof (load_connect_fault json_loads s F0) as Hbody.
    pose proof (load_never_writes json_loads s) as Hblobs.
    assert (Hcur : exists s1,
               current_document json_loads s = (Ret empty_apps_document, s1)
               /\ prompt_data s1 = Some empty_apps_document
               /\ blobs s1 = blobs s).
    { unfold current_document, gets, bind at 1. cbv beta iota. rewrite Hheld.
      unfold download_latest_prompt_repo_from_blob, cache_data, bind.
      cbv beta iota zeta. rewrite Hcache.
      destruct (download_latest_body json_loads s) as [[d|e] s'];
        simpl in Hbody; [|discriminate].
      injection Hbody as ->. simpl in *. eexists. split; [reflexivity|].
      simpl. auto. }
    destruct Hcur as (s1 & Hcur & Hp1 & Hb1).
    unfold script, edit_column, bind. rewrite Hcur. simpl.
    repeat split; assumption.
Qed.

(** X15: a failed load is cached like any other result: when the
    connection or the listing fails with the cache empty, the loader
    returns the empty-apps document and stores it, and every load within
    the next 300 time units returns that document without a request to the
    service, whatever the container holds by then. *)
Theorem load_failure_is_cached (s : State) :
  cache s = None ->
  fault_at 0 s <> None \/ (fault_at 0 s = None /\ fault_at 1 s <> None) ->
  fst (download_latest_prompt_repo_from_blob json_loads s)
  = Ret empty_apps_document
  /\ cache (snd (download_latest_prompt_repo_from_blob json_loads s))
     = Some (empty_apps_document, timer s)
  /\ forall s2,
       cache s2 = cache (snd (download_latest_prompt_repo_from_blob json_loads s)) ->
       (timer s2 < timer s + 300)%N ->
       download_latest_prompt_repo_from_blob json_loads s2
       = (Ret empty_apps_document, s2).
Proof.
  intros Hcache Hfault.
  assert (Hbody : fst (download_latest_body json_loads s) = Ret empty_apps_document).
  { destruct Hfault as [F0|[F0 F1]].
    - destruct (fault_at 0 s) as [msg|] eqn:E; [|congruence].
      now apply (load_connect_fault json_loads s E).
    - destruct (fault_at 1 s) as [msg|] eqn:E; [|congruence].
      now apply (load_list_fault json_loads s F0 E). }
  destruct (load_frame s) as (_ & Htimer & _ & _).
  assert (Hstored : cache (snd (download_latest_prompt_repo_from_blob json_loads s))
                    = Some (empty_apps_document, timer s)).
  { unfold download_latest_prompt_repo_from_blob, cache_data. rewrite Hcache.
    destruct (download_latest_body json_loads s) as [[d|e] s'];
      simpl in *; [|discriminate].
    injection Hbody as ->. now rewrite Htimer. }
  split; [|split; [exact Hstored|]].
  - destruct (cache_miss json_loads s Hcache) as [-> _]. exact Hbody.
  - intros s2 Hc2 Hfresh. rewrite Hstored in Hc2.
    unfold download_latest_prompt_repo_from_blob, cache_data. rewrite Hc2.
    unfold TTL. apply N.ltb_lt in Hfresh. now rewrite Hfresh.
Qed.

Lemma upload_success_calls (d : Document) (s : State) :
  fst (upload_prompt_repo_to_blob json_dumps d s) = Ret true ->
  calls (snd (upload_prompt_repo_to_blob json_dumps d s))
  = calls s ++ [CallConnect;
                CallUpload (snapshot_key (utcnow s)) (json_dumps 4 d)].
Proof.
  destruct s as [bs fs cs t tm ca pd u]. unfold_all. simpl.
  destruct fs as [|[m0|] fs]; simpl;
    try (destruct fs as [|[m1|] fs]; simpl);
    intros H; try discriminate; now rewrite <- app_assoc.
Qed.

(** X16: the raw editor publishes without comparing: for every text that
    parses, once the publish succeeds a snapshot of the parsed document is
    written and committed (cache cleared, document held, rerun asked),
    also when the parsed document is the one already held. *)
Theorem raw_upload_always_publishes (text : str) (d : Document) (s : State) :
  json_loads text = Parsed d ->
  fst (upload_prompt_repo_to_blob json_dumps d s) = Ret true ->
  fst (upload_raw_json json_loads json_dumps text s) = Raise RerunException
  /\ calls (snd (upload_raw_json json_loads json_dumps text s))
     = calls s ++ [CallConnect;
                   CallUpload (snapshot_key (utcnow s)) (json_dumps 4 d)]
  /\ blob_lookup (snapshot_key (utcnow s))
       (blobs (snd (upload_raw_json json_loads json_dumps text s)))
     = Some (json_dumps 4 d)
  /\ cache (snd (upload_raw_json json_loads json_dumps text s)) = None
  /\ prompt_data (snd (upload_raw_json json_loads json_dumps text s)) = Some d.
Proof.
  intros Hparse Hok.
  destruct (publish_and_commit_success json_dumps d s Hok) as (Hres & Hb & Hc & Hp).
  pose proof (upload_success_calls d s Hok) as Hcalls.
  assert (Hpc : calls (snd (publish_and_commit json_dumps d s))
                = calls (snd (upload_prompt_repo_to_blob json_dumps d s))).
  { unfold publish_and_commit, bind.
    destruct (upload_prompt_repo_to_blob json_dumps d s) as [[ok|e] s'];
      simpl in *; [|discriminate].
    injection Hok as ->. reflexivity. }
  unfold upload_raw_json, try_except, bind, loads. rewrite Hparse. unfold ret.
  destruct (publish_and_commit json_dumps d s) as [[u|e] s'];
    simpl in *; [discriminate|].
  injection Hres as ->. simpl.
  rewrite Hb, blob_lookup_put. repeat split; congruence.
Qed.

(** X17: with nothing selected nothing is published: when app 0 has no
    prompts, or the name picked in the select box is the empty string,
    pressing the upload button under any text only shows
    [No changes detected or no prompt selected.]; no request is sent and
    the session is unchanged. *)
Theorem nothing_selected_nothing_published (data : Document)
    (pl : list Prompt) (choice : nat) (typed : option str) (s : State) :
  prompt_list_of data = Ret pl ->
  pl = [] \/ nth_error (prompt_names pl) choice = Some [] ->
  exists sel s1,
    select_prompt data choice s = (Ret sel, s1)
    /\ selected_index sel = (-1)%Z
    /\ upload_changes json_dumps data sel
         (text_area (initial_content_str sel) typed) s1
       = (Ret tt,
          snd (st_info (lit "No changes detected or no prompt selected.") s1))
    /\ calls s1 = calls s /\ blobs s1 = blobs s
    /\ prompt_data s1 = prompt_data s /\ cache s1 = cache s.
Proof.
  intros Hpl Hnone.
  assert (Hsel : exists s1,
             select_prompt data choice s
             = (Ret (mkSelection (selectbox (prompt_names pl) choice) (-1) []), s1)
             /\ calls s1 = calls s /\ blobs s1 = blobs s
             /\ prompt_data s1 = prompt_data s /\ cache s1 = cache s).
  { unfold select_prompt, bind, lift. rewrite Hpl. unfold selectbox.
    destruct Hnone as [->|Hname].
    - simpl. destruct choice; simpl; eexists;
        (split; [reflexivity|]); destruct s; simpl; auto.
    - rewrite Hname. simpl.
      destruct (is_empty (prompt_names pl)); simpl; eexists;
        (split; [reflexivity|]); destruct s; simpl; auto. }
  destruct Hsel as (s1 & Hrun & Hframe).
  do 2 eexists. split; [exact Hrun|]. split; [reflexivity|].
  split; [|exact Hframe].
  unfold upload_changes. reflexivity.
Qed.

(** X18: a run that publishes an edit, end to end: the session holds a
    document, the user picks a prompt of a non-empty name, types a text
    whose trimmed form differs from the one shown and presses the upload
    button, and the service answers.  Then the run ends by asking for a
    rerun, the container holds under the key of the current second the
    serialization of the document in which the first prompt of that name
    has the lines of the text, and the session holds that document. *)
Theorem script_publishes_edit (inp : Input)
    (preview_data : option (option Document)) (data : Document)
    (pl : list Prompt) (name text : str) (s : State) :
  prompt_data s = Some data ->
  prompt_list_of data = Ret pl ->
  nth_error (prompt_names pl) (picked_prompt inp) = Some name ->
  name <> [] ->
  typed_content inp = Some text ->
  upload_changes_clicked inp = true ->
  fault_at 0 s = None -> fault_at 1 s = None ->
  exists j p candidate,
    py_index (prompt_names pl) name = Some j
    /\ nth_error pl j = Some p
    /\ with_content data (Z.of_nat j) (split_nl text) = Ret candidate
    /\ (strip text
        <> strip (join_nl match p_content p with Some c => c | None => [] end) ->
        fst (script json_loads json_dumps inp preview_data s)
        = Raise RerunException
        /\ blobs (snd (script json_loads json_dumps inp preview_data s))
           = blob_put (snapshot_key (utcnow s)) (json_dumps 4 candidate) (blobs s)
        /\ prompt_data (snd (script json_loads json_dumps inp preview_data s))
           = Some candidate
        /\ cache (snd (script json_loads json_dumps inp preview_data s)) = None).
Proof.
  intros Hheld Hpl Hname Hne Htyped Hclick F0 F1.
  destruct (select_prompt_named data (picked_prompt inp) s Hpl Hname Hne)
    as (j & p & Hj & _ & Hp & Hsel).
  destruct (with_content_nat data j (split_nl text) Hpl Hp) as (candidate & Hw & _).
  exists j, p, candidate.
  split; [exact Hj|]. split; [exact Hp|]. split; [exact Hw|].
  intros Hchanged.
  assert (Hok : fst (upload_prompt_repo_to_blob json_dumps candidate s) = Ret true).
  { destruct (upload_never_raises json_dumps candidate s) as [[|] Hok];
      [exact Hok|].
    apply upload_fails_iff in Hok. destruct Hok; contradiction. }
  destruct (publish_and_commit_success json_dumps candidate s Hok)
    as (Hres & Hb & Hc & Hpd).
  assert (Hvalid : has_apps data = true).
  { unfold prompt_list_of in Hpl. unfold has_apps.
    destruct (APPS data) as [[|app0 apps]|]; try discriminate. reflexivity. }
  unfold script, edit_column, bind.
  rewrite (current_document_held json_loads s Hheld). rewrite Hvalid. simpl.
  rewrite Hsel, Hclick, Htyped. simpl text_area.
  rewrite (upload_changes_publishes json_dumps data _ text s (candidate := candidate));
    simpl; [| lia | exact Hchanged | exact Hw].
  destruct (publish_and_commit json_dumps candidate s) as [[u|e] s'];
    simpl in *; [discriminate|].
  injection Hres as ->. auto.
Qed.

(** X19: the version just published is listed first: after a successful
    publish under a key that no stored key exceeds, the listing, with the
    service answering, starts with the key of that publish. *)
Theorem published_version_listed_first (d : Document) (s s2 : State) :
  fst (upload_prompt_repo_to_blob json_dumps d s) = Ret true ->
  blobs s2 = blobs (snd (upload_prompt_repo_to_blob json_dumps d s)) ->
  fault_at 0 s2 = None -> fault_at 1 s2 = None ->
  (forall k', In k' (stored_keys s) -> str_leb k' (snapshot_key (utcnow s)) = true) ->
  exists rest,
    fst (fetch_previous_blobs s2) = Ret (snapshot_key (utcnow s) :: rest).
Proof.
  intros Hok Hb F0 F1 Hle.
  destruct (upload_success_frame json_dumps d s Hok) as (Hput & _ & _).
  rewrite Hput in Hb.
  pose proof (@written_key_is_lex_max (blobs s) (blobs s2) (utcnow s) _ Hb Hle)
    as Hmax.
  fold (stored_keys s2) in Hmax.
  assert (Hrun : fst (fetch_previous_blobs s2) = Ret (sort_desc (stored_keys s2))).
  { destruct s2 as [bs fs cs t tm ca pd u]. unfold_all. simpl in *.
    destruct fs as [|[m0|] fs]; simpl in *; try discriminate;
      try (destruct fs as [|[m1|] fs]; simpl in *; try discriminate);
      reflexivity. }
  rewrite Hrun.
  pose proof (sort_desc_perm (stored_keys s2)) as HP.
  destruct (sort_desc (stored_keys s2)) as [|k rest] eqn:Hs.
  - apply Permutation_nil in HP. destruct Hmax as [Hin _].
    rewrite HP in Hin. contradiction.
  - exists rest. do 2 f_equal.
    apply (is_lex_max_unique (l := stored_keys s2)); [|exact Hmax].
    apply (is_lex_max_perm HP). split; [now left|].
    apply descending_head. rewrite <- Hs. apply sort_desc_descending.
Qed.

End PageProperties.

Transparent lit.

(** * The further properties on concrete runs *)

Lemma fetch_previous_blobs_newest_first_witness :
  exists versions,
    fst (fetch_previous_blobs fresh_state) = Ret versions
    /\ Permutation versions (stored_keys fresh_state)
    /\ descending versions = true
    /\ (NoDup (stored_keys fresh_state) -> strictly_descending versions = true)
    /\ calls (snd (fetch_previous_blobs fresh_state))
       = calls fresh_state ++ [CallConnect; CallList (lit "prompt_repo_")]
    /\ blobs (snd (fetch_previous_blobs fresh_state)) = blobs fresh_state
    /\ ui (snd (fetch_previous_blobs fresh_state)) = ui fresh_state.
Proof.
  apply (fetch_previous_blobs_newest_first fresh_state); reflexivity.
Defined.

Lemma fetch_previous_blobs_failure_witness :
  fst (fetch_previous_blobs offline_state) = Ret []
  /\ ui (snd (fetch_previous_blobs offline_state))
     = [Error (lit "Failed to fetch previous blobs: " ++ lit "no route")].
Proof.
  destruct (fetch_previous_blobs_failure offline_state) as (_ & _ & _ & Hfail).
  apply (Hfail (lit "no route")). left. reflexivity.
Defined.

Lemma first_listed_is_loaded_witness :
  exists k rest,
    fst (fetch_previous_blobs fresh_state) = Ret (k :: rest)
    /\ calls (snd (download_latest_body demo_loads fresh_state))
       = calls fresh_state
         ++ [CallConnect; CallList (lit "prompt_repo_"); CallDownload k].
Proof.
  apply (first_listed_is_loaded demo_loads fresh_state);
    [reflexivity | reflexivity | vm_compute; discriminate].
Defined.

Lemma publish_keeps_old_snapshots_witness :
  blob_lookup key_1000
    (blobs (snd (upload_prompt_repo_to_blob demo_dumps doc_abc editing_state)))
  = blob_lookup key_1000 (blobs editing_state)
  /\ In key_1000
       (stored_keys (snd (upload_prompt_repo_to_blob demo_dumps doc_abc editing_state))).
Proof.
  destruct (publish_keeps_old_snapshots demo_dumps doc_abc editing_state key_1000)
    as [Hdata Hkey].
  split.
  - apply Hdata. vm_compute. discriminate.
  - apply Hkey. vm_compute. right. left. reflexivity.
Defined.

Lemma publish_then_preview_witness :
  fst (load_blob_content_for_preview demo_loads key_1100
         (snd (upload_prompt_repo_to_blob demo_dumps doc_abc editing_state)))
  = Ret (Some doc_abc)
  /\ fst (load_blob_content_for_preview demo_loads key_1000
            (snd (upload_prompt_repo_to_blob demo_dumps doc_abc editing_state)))
     = fst (load_blob_content_for_preview demo_loads key_1000 editing_state).
Proof.
  destruct (publish_then_preview demo_loads demo_dumps doc_abc editing_state
              (snd (upload_prompt_repo_to_blob demo_dumps doc_abc editing_state)))
    as [Hnew Hold]; try reflexivity.
  split.
  - apply Hnew. vm_compute. reflexivity.
  - apply Hold; try reflexivity. vm_compute. discriminate.
Defined.

Lemma same_second_publish_overwrites_witness :
  blob_lookup key_1100
    (blobs (snd (upload_prompt_repo_to_blob demo_dumps doc_twins
                   (snd (upload_prompt_repo_to_blob demo_dumps doc_abc editing_state)))))
  = Some (demo_dumps 4 doc_twins)
  /\ List.map fst
       (blobs (snd (upload_prompt_repo_to_blob demo_dumps doc_twins
                      (snd (upload_prompt_repo_to_blob demo_dumps doc_abc editing_state)))))
     = List.map fst
         (blobs (snd (upload_prompt_repo_to_blob demo_dumps doc_abc editing_state))).
Proof.
  apply (same_second_publish_overwrites demo_dumps doc_abc doc_twins editing_state
           (snd (upload_prompt_repo_to_blob demo_dumps doc_abc editing_state)));
    reflexivity.
Defined.

Lemma snapshot_keys_sort_by_time_witness :
  str_ltb (snapshot_key ten_o_clock) (snapshot_key eleven_o_clock) = true
  /\ str_ltb (snapshot_key eleven_o_clock) (snapshot_key ten_o_clock) = false.
Proof.
  split.
  - rewrite (snapshot_keys_sort_by_time ten_o_clock eleven_o_clock);
      reflexivity.
  - rewrite (snapshot_keys_sort_by_time eleven_o_clock ten_o_clock);
      reflexivity.
Defined.

Lemma prompt_names_by_position_witness :
  nth_error (prompt_names [mkPrompt None None; demo_prompt "x" []; mkPrompt None None]) 2
  = Some (lit "Unnamed Prompt " ++ dec 2)
  /\ nth_error (prompt_names [mkPrompt None None; demo_prompt "x" []; mkPrompt None None]) 0
     <> nth_error (prompt_names [mkPrompt None None; demo_prompt "x" []; mkPrompt None None]) 2.
Proof.
  destruct (prompt_names_by_position
              [mkPrompt None None; demo_prompt "x" []; mkPrompt None None])
    as (_ & Hname & Hdiff & _).
  split.
  - apply (Hname 2 (mkPrompt None None)). reflexivity.
  - apply (Hdiff 0 2 (mkPrompt None None) (mkPrompt None None));
      try reflexivity. lia.
Defined.

Lemma edit_changes_one_content_witness :
  exists app0 app0' apps pl pl' j,
    APPS doc_twins = Some (app0 :: apps)
    /\ APPS doc_twins_edited = Some (app0' :: apps)
    /\ a_name app0' = a_name app0
    /\ a_prompts app0 = Some pl
    /\ a_prompts app0' = Some pl'
    /\ length pl' = length pl
    /\ prompt_names pl' = prompt_names pl
    /\ (exists p, nth_error pl j = Some p
                  /\ nth_error pl' j
                     = Some (mkPrompt (p_name p) (Some [lit "changed"])))
    /\ (forall m, m <> j -> nth_error pl' m = nth_error pl m).
Proof.
  apply (@edit_changes_one_content doc_twins doc_twins_edited 0 [lit "changed"]).
  reflexivity.
Defined.

Lemma edit_then_select_round_trip_witness :
  exists data',
    with_content doc_ab (Z.of_nat 0) (split_nl text_abc) = Ret data'
    /\ forall s,
         select_prompt data' 0 s
         = (Ret (mkSelection (Some (lit "greeting")) (Z.of_nat 0) text_abc), s).
Proof.
  apply (@edit_then_select_round_trip doc_ab
           [demo_prompt "greeting" [lit "a"; lit "b"]] 0 (lit "greeting") text_abc).
  - reflexivity.
  - reflexivity.
  - discriminate.
  - intros m Hm. lia.
Defined.



Lemma session_without_apps_is_stuck_witness :
  script demo_loads demo_dumps
    (mkInput 0 (Some text_abc) true 0 true (Some (demo_dumps 4 doc_ab)) true)
    None degraded_state
  = (Ret None,
     snd (st_error (lit "Could not load a valid prompt structure from Azure. Please check the connection string and container name.") degraded_state))
  /\ prompt_data (snd (script demo_loads demo_dumps idle None offline_state))
     = Some empty_apps_document.
Proof.
  destruct (session_without_apps_is_stuck demo_loads demo_dumps
              (mkInput 0 (Some text_abc) true 0 true (Some (demo_dumps 4 doc_ab)) true)
              None degraded_state) as [Hstuck _].
  destruct (session_without_apps_is_stuck demo_loads demo_dumps idle None
              offline_state) as [_ Hfresh].
  split.
  - apply (Hstuck empty_apps_document); reflexivity.
  - apply Hfresh; try reflexivity. vm_compute. discriminate.
Defined.

Lemma load_failure_is_cached_witness :
  fst (download_latest_prompt_repo_from_blob demo_loads offline_state)
  = Ret empty_apps_document
  /\ download_latest_prompt_repo_from_blob demo_loads
       (snd (download_latest_prompt_repo_from_blob demo_loads offline_state))
     = (Ret empty_apps_document,
        snd (download_latest_prompt_repo_from_blob demo_loads offline_state)).
Proof.
  destruct (load_failure_is_cached demo_loads offline_state)
    as (Hres & _ & Hlater).
  - reflexivity.
  - left. vm_compute. discriminate.
  - split; [exact Hres|]. apply Hlater; reflexivity.
Defined.

Lemma raw_upload_always_publishes_witness :
  prompt_data editing_state = Some doc_ab
  /\ fst (upload_raw_json demo_loads demo_dumps (demo_dumps 4 doc_ab) editing_state)
     = Raise RerunException
  /\ blob_lookup key_1100
       (blobs (snd (upload_raw_json demo_loads demo_dumps (demo_dumps 4 doc_ab)
                      editing_state)))
     = Some (demo_dumps 4 doc_ab).
Proof.
  destruct (@raw_upload_always_publishes demo_loads demo_dumps
              (demo_dumps 4 doc_ab) doc_ab editing_state)
    as (Hrerun & _ & Hblob & _ & _).
  - vm_compute. reflexivity.
  - vm_compute. reflexivity.
  - split; [reflexivity|]. split; [exact Hrerun | exact Hblob].
Defined.

Lemma nothing_selected_nothing_published_witness :
  exists sel s1,
    select_prompt doc_nameless 1 editing_state = (Ret sel, s1)
    /\ selected_index sel = (-1)%Z
    /\ upload_changes demo_dumps doc_nameless sel
         (text_area (initial_content_str sel) (Some text_abc)) s1
       = (Ret tt,
          snd (st_info (lit "No changes detected or no prompt selected.") s1))
    /\ calls s1 = calls editing_state /\ blobs s1 = blobs editing_state
    /\ prompt_data s1 = prompt_data editing_state
    /\ cache s1 = cache editing_state.
Proof.
  apply (@nothing_selected_nothing_published demo_dumps doc_nameless
           [demo_prompt "" [lit "first"]; demo_prompt "" [lit "second"]]
           1 (Some text_abc) editing_state).
  - reflexivity.
  - right. reflexivity.
Defined.

Lemma script_publishes_edit_witness :
  fst (script demo_loads demo_dumps
         (mkInput 0 (Some text_abc) true 0 false None false) None editing_state)
  = Raise RerunException
  /\ blobs (snd (script demo_loads demo_dumps
                   (mkInput 0 (Some text_abc) true 0 false None false) None
                   editing_state))
     = two_snapshots ++ [(key_1100, demo_dumps 4 doc_abc)]
  /\ prompt_data (snd (script demo_loads demo_dumps
                         (mkInput 0 (Some text_abc) true 0 false None false) None
                         editing_state))
     = Some doc_abc.
Proof.
  destruct (@script_publishes_edit demo_loads demo_dumps
              (mkInput 0 (Some text_abc) true 0 false None false) None doc_ab
              [demo_prompt "greeting" [lit "a"; lit "b"]] (lit "greeting")
              text_abc editing_state)
    as (j & p & candidate & Hj & Hp & Hw & Hrun);
    try reflexivity; [discriminate|].
  vm_compute in Hj. injection Hj as <-.
  vm_compute in Hp. injection Hp as <-.
  assert (E : candidate = doc_abc).
  { pose proof Hw as Hw'. vm_compute in Hw'. injection Hw' as <-. reflexivity. }
  subst candidate.
  destruct Hrun as (Hres & Hb & Hpd & _); [vm_compute; discriminate|].
  split; [exact Hres|]. split; [|exact Hpd].
  rewrite Hb. vm_compute. reflexivity.
Defined.

Lemma published_version_listed_first_witness :
  exists rest,
    fst (fetch_previous_blobs
           (snd (upload_prompt_repo_to_blob demo_dumps doc_abc editing_state)))
    = Ret (snapshot_key (utcnow editing_state) :: rest).
Proof.
  apply (@published_version_listed_first demo_dumps doc_abc
           editing_state
           (snd (upload_prompt_repo_to_blob demo_dumps doc_abc editing_state)));
    try reflexivity.
  intros k' [<-|[<-|[]]]; vm_compute; reflexivity.
Defined.
